(** * Artwork Review SOP: validator and table renderer (sop_single.py)

    A shallow embedding of [sop_single.py] and the properties of its
    validation and rendering pipeline.

    Text is modelled as [string], the UTF-8 bytes of a Python [str]; the
    emoji of the lookup tables are therefore multi-byte literals.  Python's
    [str.strip], [str.upper] and the [\d] class of [re] consult the Unicode
    database; they are modelled on the ASCII range, which contains every key
    of the lookup tables and every value a schema-valid document can give
    to a region label.  Bytes above 127 are left unchanged by [upper], are
    not whitespace and are not digits; Python differs on text outside
    ASCII, where it trims further spaces, counts further digits and
    upper-cases a few letters into ASCII ones. *)

From Stdlib Require Import String Ascii List Bool Arith ZArith Lia.
From Stdlib Require Import Sorting.Sorted Sorting.Permutation.
From Stdlib Require Import Numbers.DecimalString Floats.SpecFloat.
Import ListNotations.
Open Scope string_scope.

(* ================================================================== *)
(** ** Python string built-ins *)

Module Py.

(** [str.isspace] on one ASCII character: TAB, LF, VT, FF, CR, the four
    separators FS, GS, RS, US, and the space. *)
Definition is_space (c : ascii) : bool :=
  let n := nat_of_ascii c in
  ((9 <=? n) && (n <=? 13) || (28 <=? n) && (n <=? 32))%nat.

Fixpoint lstrip (s : string) : string :=
  match s with
  | String c s' => if is_space c then lstrip s' else s
  | EmptyString => EmptyString
  end.

(** Trailing whitespace: a character is dropped when it is whitespace
    and everything after it has been dropped. *)
Fixpoint rstrip (s : string) : string :=
  match s with
  | String c s' =>
      match rstrip s' with
      | EmptyString => if is_space c then EmptyString else String c EmptyString
      | t => String c t
      end
  | EmptyString => EmptyString
  end.

(** [s.strip()] *)
Definition strip (s : string) : string := rstrip (lstrip s).

Definition upper_char (c : ascii) : ascii :=
  let n := nat_of_ascii c in
  if ((97 <=? n) && (n <=? 122))%nat then ascii_of_nat (n - 32) else c.

(** [s.upper()] *)
Fixpoint upper (s : string) : string :=
  match s with
  | String c s' => String (upper_char c) (upper s')
  | EmptyString => EmptyString
  end.

(** [s.replace(c, "")] for a one-character [c]. *)
Fixpoint remove_char (c : ascii) (s : string) : string :=
  match s with
  | String d s' =>
      if Ascii.eqb d c then remove_char c s' else String d (remove_char c s')
  | EmptyString => EmptyString
  end.

(** [sep.join(parts)] *)
Fixpoint join (sep : string) (parts : list string) : string :=
  match parts with
  | [] => EmptyString
  | [p] => p
  | p :: rest => p ++ sep ++ join sep rest
  end.

(** [str(n)] for an [int]. *)
Definition str_int (z : Z) : string := NilZero.string_of_int (Z.to_int z).

(** A [dict] with string keys, in insertion order. *)
Definition dict (V : Type) : Type := list (string * V).

(** [d.get(k)] *)
Fixpoint get {V : Type} (d : dict V) (k : string) : option V :=
  match d with
  | [] => None
  | (k', v) :: d' => if String.eqb k k' then Some v else get d' k
  end.

(** [d.get(k, default)] *)
Definition get_default {V : Type} (d : dict V) (k : string) (default : V) : V :=
  match get d k with
  | Some v => v
  | None => default
  end.

(** [k in d] *)
Definition contains {V : Type} (d : dict V) (k : string) : bool :=
  match get d k with
  | Some _ => true
  | None => false
  end.

(** The newline character. *)
Definition nl : string := String (ascii_of_nat 10) EmptyString.

(** A byte that continues a UTF-8 sequence (binary 10xxxxxx). *)
Definition is_continuation (c : ascii) : bool :=
  let n := nat_of_ascii c in ((128 <=? n) && (n <=? 191))%nat.

(** [len(s)]: the number of code points. *)
Fixpoint len (s : string) : nat :=
  match s with
  | String c s' => if is_continuation c then len s' else S (len s')
  | EmptyString => 0
  end.

(** [list(s)]: the one-character strings of [s]. *)
Fixpoint chars (s : string) : list string :=
  match s with
  | String c s' =>
      match chars s' with
      | t :: rest =>
          match t with
          | String d _ =>
              if is_continuation d then String c t :: rest
              else String c EmptyString :: t :: rest
          | EmptyString => String c EmptyString :: rest
          end
      | [] => [String c EmptyString]
      end
  | EmptyString => []
  end.

(** [s.startswith(p)] *)
Fixpoint startswith (p s : string) : bool :=
  match p, s with
  | EmptyString, _ => true
  | String a p', String b s' => Ascii.eqb a b && startswith p' s'
  | String _ _, EmptyString => false
  end.

(** [p in s] for two strings. *)
Fixpoint is_substring (p s : string) : bool :=
  startswith p s ||
  match s with
  | String _ s' => is_substring p s'
  | EmptyString => false
  end.

(** Exceptions raised by the modelled code. *)
Inductive exn : Type :=
| ValueError (msg : string)
| KeyError
| TypeError
| IndexError
| AttributeError.

Inductive result (A : Type) : Type :=
| Ok (a : A)
| Raise (e : exn).
Arguments Ok {A} a.
Arguments Raise {A} e.

Definition bind {A B : Type} (m : result A) (f : A -> result B) : result B :=
  match m with
  | Ok a => f a
  | Raise e => Raise e
  end.

(** A [for] loop whose body may raise: the state is threaded through
    the iterations, the first exception ends the loop. *)
Fixpoint for_each {A S : Type} (body : S -> A -> result S) (xs : list A) (st : S)
  : result S :=
  match xs with
  | [] => Ok st
  | x :: xs' => bind (body st x) (for_each body xs')
  end.

End Py.

Notation "x <- m ;; k" := (Py.bind m (fun x => k))
  (at level 61, m at next level, right associativity).

(* ================================================================== *)
(** ** Parsed documents: the values [json.loads] returns *)

Module Json.
Import Py.

(** A Python [int], or a [float] given by sign, mantissa and exponent. *)
Inductive number : Type :=
| NInt (z : Z)
| NFloat (f : spec_float).

#[warnings="-register-all"]
Inductive json : Type :=
| JNull
| JBool (b : bool)
| JNum (n : number)
| JString (s : string)
| JArray (items : list json)
| JObject (fields : dict json).

Definition signed (s : bool) (m : positive) : Z :=
  if s then Z.neg m else Z.pos m.

(** The integer a float is equal to, when [f.is_integer()]. *)
Definition float_integral (f : spec_float) : option Z :=
  match f with
  | S754_zero _ => Some 0%Z
  | S754_finite s m e =>
      if (0 <=? e)%Z then Some (signed s m * 2 ^ e)%Z
      else if (Z.pos m mod 2 ^ (- e) =? 0)%Z then Some (signed s m / 2 ^ (- e))%Z
      else None
  | S754_infinity _ | S754_nan => None
  end.

(** [x < k] and [x > k] for a number [x] and an [int] bound [k];
    Python compares a float with an int exactly. *)
Definition lt_int (x : number) (k : Z) : bool :=
  match x with
  | NInt z => (z <? k)%Z
  | NFloat (S754_zero _) => (0 <? k)%Z
  | NFloat (S754_infinity s) => s
  | NFloat S754_nan => false
  | NFloat (S754_finite s m e) =>
      if (0 <=? e)%Z then (signed s m * 2 ^ e <? k)%Z
      else (signed s m / 2 ^ (- e) <? k)%Z
  end.

Definition gt_int (x : number) (k : Z) : bool :=
  match x with
  | NInt z => (k <? z)%Z
  | NFloat (S754_zero _) => (k <? 0)%Z
  | NFloat (S754_infinity s) => negb s
  | NFloat S754_nan => false
  | NFloat (S754_finite s m e) =>
      if (0 <=? e)%Z then (k <? signed s m * 2 ^ e)%Z
      else (k <? - (signed (negb s) m / 2 ^ (- e)))%Z
  end.

(** [x == y] on numbers. *)
Definition num_eqb (x y : number) : bool :=
  match x, y with
  | NInt a, NInt b => (a =? b)%Z
  | NInt a, NFloat f | NFloat f, NInt a =>
      match float_integral f with
      | Some b => (a =? b)%Z
      | None => false
      end
  | NFloat f, NFloat g => SFeqb f g
  end.

(** Deep equality of two values; a dict compares by its bindings, not
    their order, and a boolean is equal to booleans only. *)
Fixpoint equal (a b : json) {struct a} : bool :=
  match a, b with
  | JNull, JNull => true
  | JBool x, JBool y => Bool.eqb x y
  | JNum x, JNum y => num_eqb x y
  | JString x, JString y => String.eqb x y
  | JArray xs, JArray ys =>
      (fix each (xs ys : list json) {struct xs} : bool :=
         match xs, ys with
         | [], [] => true
         | x :: xs', y :: ys' => equal x y && each xs' ys'
         | _, _ => false
         end) xs ys
  | JObject xo, JObject yo =>
      (List.length xo =? List.length yo)%nat &&
      (fix each (xo : dict json) {struct xo} : bool :=
         match xo with
         | [] => true
         | (k, v) :: xo' =>
             match get yo k with
             | Some w => equal v w
             | None => false
             end && each xo'
         end) xo
  | _, _ => false
  end.

(** Truth value of a value in a condition. *)
Definition truthy (v : json) : bool :=
  match v with
  | JNull => false
  | JBool b => b
  | JNum (NInt z) => negb (z =? 0)%Z
  | JNum (NFloat (S754_zero _)) => false
  | JNum (NFloat _) => true
  | JString s => negb (s =? "")
  | JArray l => match l with [] => false | _ => true end
  | JObject o => match o with [] => false | _ => true end
  end.

(** [for x in v]: the items of a list, the keys of a dict, the
    characters of a string. *)
Definition iterate (v : json) : result (list json) :=
  match v with
  | JArray l => Ok l
  | JObject o => Ok (map (fun kv => JString (fst kv)) o)
  | JString s => Ok (map JString (chars s))
  | _ => Raise TypeError
  end.

(** [v[k]] for a string [k]. *)
Definition getitem (v : json) (k : string) : result json :=
  match v with
  | JObject o =>
      match get o k with
      | Some x => Ok x
      | None => Raise KeyError
      end
  | _ => Raise TypeError
  end.

(** [v.get(k, default)] *)
Definition dict_get (v : json) (k : string) (default : json) : result json :=
  match v with
  | JObject o => Ok (get_default o k default)
  | _ => Raise AttributeError
  end.

(** [k in v] for a string [k]. *)
Definition has_key (k : string) (v : json) : result bool :=
  match v with
  | JObject o => Ok (contains o k)
  | JArray l => Ok (existsb (equal (JString k)) l)
  | JString s => Ok (is_substring k s)
  | _ => Raise TypeError
  end.

Definition as_str (v : json) : result string :=
  match v with
  | JString s => Ok s
  | _ => Raise TypeError
  end.

Fixpoint all_str (vs : list json) : result (list string) :=
  match vs with
  | [] => Ok []
  | v :: vs' => s <- as_str v ;; rest <- all_str vs' ;; Ok (s :: rest)
  end.

(** [sep.join(v)] *)
Definition str_join (sep : string) (v : json) : result string :=
  items <- iterate v ;; strs <- all_str items ;; Ok (join sep strs).

(** [table[key]] for a module-level table with string keys. *)
Definition table_getitem (table : dict string) (key : json) : result string :=
  match key with
  | JString k =>
      match get table k with
      | Some x => Ok x
      | None => Raise KeyError
      end
  | JArray _ | JObject _ => Raise TypeError
  | _ => Raise KeyError
  end.

Section Str.
(** [repr] of a float, a list or a dict is left to the interpreter. *)
Variable py_repr : json -> string.

(** [str(v)], also what an f-string puts for [{v}]. *)
Definition py_str (v : json) : string :=
  match v with
  | JString s => s
  | JNum (NInt z) => str_int z
  | JBool true => "True"
  | JBool false => "False"
  | JNull => "None"
  | _ => py_repr v
  end.
End Str.

End Json.

(* ================================================================== *)
(** ** Normalization tables and the region formatter *)

Module Regions.
Import Py Json.

Definition STATUS_EMOJI : dict string :=
  [ ("OK", "✅");
    ("ATTN", "⚠️");
    ("FAIL", "❌");
    ("TBD", "TBD");
    ("FYI", "FYI") ].

Definition REGION_FLAGS : dict string :=
  [ ("USA", "🇺🇸");
    ("EU", "🇪🇺");
    ("UK", "🇬🇧");
    ("CA", "🇨🇦");
    ("OTHER", "🌐") ].

Definition REGION_ALIASES : dict string :=
  [ ("US", "USA");
    ("UNITED STATES", "USA");
    ("EUROPEAN UNION", "EU");
    ("UNITED KINGDOM", "UK");
    ("CANADA", "CA") ].

(** [REGION_FLAGS["OTHER"]]; the key is in the table, the subscript
    does not raise. *)
Definition fallback_flag : string := get_default REGION_FLAGS "OTHER" "".

(** The two assignments to [key] in the loop body, for a label that is
    a string: [r.strip().upper().replace(".", "")], then the alias
    lookup. *)
Definition normalize_key (r : string) : string :=
  let key := remove_char "." (upper (strip r)) in
  get_default REGION_ALIASES key key.

(** [REGION_FLAGS.get(key, REGION_FLAGS["OTHER"])] *)
Definition flag_of_key (key : string) : string :=
  get_default REGION_FLAGS key fallback_flag.

Section Format.
Variable py_repr : json -> string.

(** The body of the loop for one item [r]: the text appended to
    [parts].  [(r or "")] is [r] when it is truthy; [.strip()] exists
    on strings only. *)
Definition region_cell (r : json) : result string :=
  label <- match (if truthy r then r else JString "") with
           | JString s => Ok s
           | _ => Raise AttributeError
           end ;;
  let flag := flag_of_key (normalize_key label) in
  Ok (strip (flag ++ " " ++ py_str py_repr r)).

Definition _format_regions_with_flags (regions : json) : result string :=
  items <- iterate (if truthy regions then regions else JArray []) ;;
  parts <- for_each (fun parts r => cell <- region_cell r ;; Ok (parts ++ [cell])%list)
                    items [] ;;
  Ok (join ", " parts).
End Format.

End Regions.

(* ================================================================== *)
(** ** The table renderer *)

Module Table.
Import Py Json.

Section Table.
Variable py_repr : json -> string.

(** ["| " + " | ".join(cells) + " |"] *)
Definition row_line (cells : list string) : string :=
  "| " ++ join " | " cells ++ " |".

(** ["|" + "|".join(["---"] * n) + "|"] *)
Definition separator_line (n : nat) : string :=
  "|" ++ join "|" (repeat "---" n) ++ "|".

(** [rows] is the list the section renderers build: the header row,
    then the data rows.  [rows[0]] raises on an empty list; the cells
    of the header row are joined as they are and must be strings, the
    cells of a data row go through [str]. *)
Definition _print_table (header : string) (rows : list (list json))
  : result string :=
  match rows with
  | [] => Raise IndexError
  | head :: data =>
      let out := ([] ++ [header])%list in
      let out := (out ++ [""])%list in
      cells <- all_str head ;;
      let out := (out ++ [row_line cells])%list in
      let out := (out ++ [separator_line (List.length head)])%list in
      let out :=
        fold_left (fun out r => (out ++ [row_line (map (py_str py_repr) r)])%list)
                  data out in
      Ok (join nl out)
  end.
End Table.

End Table.

(* ================================================================== *)
(** ** The section renderers *)

Module Render.
Import Py Json Regions Table.

(** A row of string literals. *)
Definition literals (cells : list string) : list json := map JString cells.

(** ["Yes" if v else "No"] and the like. *)
Definition choose (v : json) (yes no : string) : json :=
  JString (if truthy v then yes else no).

(** [rows = [header]], then [for x in items: rows.append(row(x))]. *)
Definition collect_rows (header : list string) (row : json -> result (list json))
           (items : list json) : result (list (list json)) :=
  for_each (fun rows x => r <- row x ;; Ok (rows ++ [r])%list) items [literals header].

Section Render.
Variable py_repr : json -> string.

Definition render_step1 (d : json) : result string :=
  project_name <- getitem d "project_name" ;;
  round_version <- getitem d "round_version" ;;
  regions <- getitem d "regions_in_scope" ;;
  flags <- _format_regions_with_flags py_repr regions ;;
  due_date <- getitem d "due_date" ;;
  let rows :=
    [ literals ["Field"; "Fill In"];
      [JString "Project Name"; project_name];
      [JString "Round / Version"; round_version];
      [JString "Regions in Scope"; JString flags];
      [JString "Due Date"; due_date] ] in
  _print_table py_repr "1️⃣ Project Header" rows.

Definition render_step2 (d : json) : result string :=
  files <- getitem d "files" ;;
  items <- iterate files ;;
  rows <- collect_rows ["Type"; "Filename"; "Status"; "Note"]
            (fun f =>
               type <- getitem f "type" ;;
               filename <- getitem f "filename" ;;
               status_code <- getitem f "status_code" ;;
               status <- table_getitem STATUS_EMOJI status_code ;;
               note <- dict_get f "note" (JString "") ;;
               Ok [type; filename; JString status; note])
            items ;;
  _print_table py_repr "2️⃣ Files to Attach" rows.

Definition render_step3_copy_quality (items : json) : result string :=
  xs <- iterate items ;;
  rows <- collect_rows
            ["Language"; "Original Text"; "Recommendation"; "Status"; "Evidence"]
            (fun x =>
               language <- getitem x "language" ;;
               original_text <- getitem x "original_text" ;;
               recommendation <- getitem x "recommendation" ;;
               status_code <- getitem x "status_code" ;;
               status <- table_getitem STATUS_EMOJI status_code ;;
               evidence <- getitem x "evidence" ;;
               Ok [language; original_text; recommendation; JString status; evidence])
            xs ;;
  _print_table py_repr "A. Copy Quality" rows.

Definition render_step3_claim_risk (items : json) : result string :=
  xs <- iterate items ;;
  rows <- collect_rows
            ["Language"; "Claim (quote)"; "Risk Level"; "Rationale"; "Regions";
             "Action"; "Status"]
            (fun x =>
               language <- getitem x "language" ;;
               claim <- getitem x "claim" ;;
               risk_level <- getitem x "risk_level" ;;
               rationale <- getitem x "rationale" ;;
               regions_impacted <- getitem x "regions_impacted" ;;
               regions <- str_join ", " regions_impacted ;;
               action <- getitem x "action" ;;
               status_code <- getitem x "status_code" ;;
               status <- table_getitem STATUS_EMOJI status_code ;;
               Ok [language; claim; risk_level; rationale; JString regions; action;
                   JString status])
            xs ;;
  _print_table py_repr "B. Claim Risk" rows.

Definition render_step3_label_claim_conversion (items : json) : result string :=
  xs <- iterate items ;;
  rows <- collect_rows
            ["Source"; "Declared (mL)"; "Calculated (fl oz)"; "Declared (fl oz)";
             "Within ±0.10"; "Status"; "Notes"]
            (fun x =>
               source <- getitem x "source" ;;
               declared_ml <- getitem x "declared_ml" ;;
               calculated_fl_oz <- getitem x "calculated_fl_oz" ;;
               declared_fl_oz <- getitem x "declared_fl_oz" ;;
               within_tolerance <- getitem x "within_tolerance" ;;
               status_code <- getitem x "status_code" ;;
               status <- table_getitem STATUS_EMOJI status_code ;;
               notes <- getitem x "notes" ;;
               Ok [source; declared_ml; calculated_fl_oz; declared_fl_oz;
                   choose within_tolerance "Yes" "No"; JString status; notes])
            xs ;;
  _print_table py_repr "C. Label-Claim Conversion" rows.

Definition render_step3_artwork_match (items : json) : result string :=
  xs <- iterate items ;;
  rows <- collect_rows
            ["Field"; "Copy Doc Value"; "Artwork Value"; "Match"; "Notes"]
            (fun x =>
               field <- getitem x "field" ;;
               copy_doc_value <- getitem x "copy_doc_value" ;;
               artwork_value <- getitem x "artwork_value" ;;
               match_ <- getitem x "match" ;;
               notes <- getitem x "notes" ;;
               Ok [field; copy_doc_value; artwork_value; choose match_ "✅" "❌"; notes])
            xs ;;
  _print_table py_repr "D. Artwork Match" rows.

Definition render_step3_font_size (items : json) : result string :=
  xs <- iterate items ;;
  rows <- collect_rows
            ["Text String / Field"; "Jurisdiction"; "Required Min (pt)";
             "Measured Min (pt)"; "Method"; "Status"; "Screenshot ID"]
            (fun x =>
               text <- getitem x "text" ;;
               jurisdiction <- getitem x "jurisdiction" ;;
               required_min_pt <- getitem x "required_min_pt" ;;
               measured_min_pt <- getitem x "measured_min_pt" ;;
               method <- getitem x "method" ;;
               status_code <- getitem x "status_code" ;;
               status <- table_getitem STATUS_EMOJI status_code ;;
               screenshot_id <- getitem x "screenshot_id" ;;
               Ok [text; jurisdiction; required_min_pt; measured_min_pt; method;
                   JString status; screenshot_id])
            xs ;;
  _print_table py_repr "E. Font Size" rows.

Definition render_step3_barcode (items : json) : result string :=
  xs <- iterate items ;;
  rows <- collect_rows
            ["Symbology"; "Encoded Digits"; "Check Digit Valid"; "X-Dim (mm)";
             "Quiet Zone (mm)"; "Module Count"; "Print Contrast"; "Scan Test"]
            (fun x =>
               symbology <- getitem x "symbology" ;;
               encoded_digits <- getitem x "encoded_digits" ;;
               check_digit_valid <- getitem x "check_digit_valid" ;;
               x_dim_mm <- getitem x "x_dim_mm" ;;
               quiet_zone_mm <- getitem x "quiet_zone_mm" ;;
               module_count <- getitem x "module_count" ;;
               print_contrast <- getitem x "print_contrast" ;;
               scan_test <- getitem x "scan_test" ;;
               Ok [symbology; encoded_digits; choose check_digit_valid "Yes" "No";
                   x_dim_mm; quiet_zone_mm; module_count; print_contrast; scan_test])
            xs ;;
  _print_table py_repr "F. Barcode" rows.

Definition render_step3_visual_snapshots (items : json) : result string :=
  xs <- iterate items ;;
  rows <- collect_rows
            ["ID"; "What"; "Where"; "Fix"; "Linked Rows"; "Status After Fix"]
            (fun x =>
               id <- getitem x "id" ;;
               what <- getitem x "what" ;;
               where_ <- getitem x "where" ;;
               fix_ <- getitem x "fix" ;;
               linked_rows <- getitem x "linked_rows" ;;
               linked <- str_join ", " linked_rows ;;
               status_after_fix <- getitem x "status_after_fix" ;;
               Ok [id; what; where_; fix_; JString linked; status_after_fix])
            xs ;;
  _print_table py_repr "G. Visual Snapshots" rows.

(** The local function of [render_step3_score_summary]. *)
Definition small_table (title : string) (items : json) : result string :=
  its <- iterate items ;;
  rows <- collect_rows ["Item"] (fun it => Ok [it]) its ;;
  _print_table py_repr title rows.

Definition render_step3_score_summary (d : json) : result string :=
  summary_rows <- getitem d "summary_rows" ;;
  xs <- iterate summary_rows ;;
  rows <- collect_rows ["Area"; "Checks"; "Matches"; "Score %"; "Notes"]
            (fun x =>
               area <- getitem x "area" ;;
               checks <- getitem x "checks" ;;
               matches <- getitem x "matches" ;;
               score_percent <- getitem x "score_percent" ;;
               notes <- getitem x "notes" ;;
               Ok [area; checks; matches; score_percent; notes])
            xs ;;
  block <- _print_table py_repr "H. Score & Summary" rows ;;
  let pieces := [block] in
  top_fixes <- dict_get d "top_fixes" (JArray []) ;;
  t <- small_table "Top Fixes (❌)" top_fixes ;;
  let pieces := (pieces ++ [t])%list in
  attention <- dict_get d "attention" (JArray []) ;;
  t <- small_table "Attention (⚠️)" attention ;;
  let pieces := (pieces ++ [t])%list in
  next_steps <- dict_get d "next_steps" (JArray []) ;;
  t <- small_table "Next Steps" next_steps ;;
  let pieces := (pieces ++ [t])%list in
  Ok (join (nl ++ nl) pieces).

Definition render_step3 (d : json) : result string :=
  let parts := [] in
  v <- getitem d "copy_quality" ;; t <- render_step3_copy_quality v ;;
  let parts := (parts ++ [t])%list in
  v <- getitem d "claim_risk" ;; t <- render_step3_claim_risk v ;;
  let parts := (parts ++ [t])%list in
  v <- getitem d "label_claim_conversion" ;;
  t <- render_step3_label_claim_conversion v ;;
  let parts := (parts ++ [t])%list in
  v <- getitem d "artwork_match" ;; t <- render_step3_artwork_match v ;;
  let parts := (parts ++ [t])%list in
  v <- getitem d "font_size" ;; t <- render_step3_font_size v ;;
  let parts := (parts ++ [t])%list in
  v <- getitem d "barcode" ;; t <- render_step3_barcode v ;;
  let parts := (parts ++ [t])%list in
  v <- getitem d "visual_snapshots" ;; t <- render_step3_visual_snapshots v ;;
  let parts := (parts ++ [t])%list in
  v <- getitem d "score_summary" ;; t <- render_step3_score_summary v ;;
  let parts := (parts ++ [t])%list in
  Ok (join (nl ++ nl) parts).

Definition render_step4 (d : json) : result string :=
  let rows := [literals ["Field"; "Content"]] in
  present <- has_key "version_change_log" d ;;
  rows <- (if present : bool
           then v <- getitem d "version_change_log" ;;
                Ok (rows ++ [[JString "Version-Change Log"; v]])%list
           else Ok rows) ;;
  present <- has_key "creative_brand_voice_check" d ;;
  rows <- (if present : bool
           then v <- getitem d "creative_brand_voice_check" ;;
                Ok (rows ++ [[JString "Creative Brand-Voice Check"; v]])%list
           else Ok rows) ;;
  present <- has_key "one_page_pdf_summary_export" d ;;
  rows <- (if present : bool
           then v <- getitem d "one_page_pdf_summary_export" ;;
                Ok (rows ++ [[JString "One-Page PDF Summary Export";
                              choose v "Yes" "No"]])%list
           else Ok rows) ;;
  _print_table py_repr "4️⃣ Optional Fields" rows.

Definition render_step5 (d : json) : result string :=
  constraints <- getitem d "constraints" ;;
  xs <- iterate constraints ;;
  rows <- collect_rows ["Constraint"; "Source"; "Applies To (Region/Panel)"; "Notes"]
            (fun x =>
               constraint <- getitem x "constraint" ;;
               source <- getitem x "source" ;;
               applies_to <- getitem x "applies_to" ;;
               notes <- getitem x "notes" ;;
               Ok [constraint; source; applies_to; notes])
            xs ;;
  _print_table py_repr "5️⃣ Special Notes / Constraints" rows.

(** The rendering part of [main]: [out_parts] is filled section by
    section and joined into [md]. *)
Definition render_report (payload : json) : result string :=
  let out_parts := [] in
  d <- getitem payload "step1" ;; t <- render_step1 d ;;
  let out_parts := (out_parts ++ [t])%list in
  d <- getitem payload "step2" ;; t <- render_step2 d ;;
  let out_parts := (out_parts ++ [t])%list in
  d <- getitem payload "step3" ;; t <- render_step3 d ;;
  let out_parts := (out_parts ++ [t])%list in
  present <- has_key "step4" payload ;;
  out_parts <- (if present : bool
                then d <- getitem payload "step4" ;; t <- render_step4 d ;;
                     Ok (out_parts ++ [t])%list
                else Ok out_parts) ;;
  d <- getitem payload "step5" ;; t <- render_step5 d ;;
  let out_parts := (out_parts ++ [t])%list in
  Ok (join (nl ++ nl) out_parts ++ nl).
End Render.

End Render.

(* ================================================================== *)
(** ** The schema: [SCHEMA_JSON] as a value *)

Module Schema.
Import Py Json.

(** *** Patterns

    Every pattern of the schema is an alternation of branches of the form
    [^ items $], an item being a character set with a quantifier.  The
    source text of the regular expression is kept beside its branches. *)

Inductive charset : Type :=
| Digit                              (* \d *)
| Lit (c : ascii)                    (* a literal character *)
| OneOf (ranges : list (ascii * ascii)).   (* [a-bc-d...] *)

Inductive quantifier : Type :=
| Once
| OneOrMore                          (* + *)
| Exactly (n : nat).                 (* {n} *)

Definition branch : Type := list (charset * quantifier).

Record pattern : Type := { source : string; branches : list branch }.

Definition in_range (c : ascii) (r : ascii * ascii) : bool :=
  (nat_of_ascii (fst r) <=? nat_of_ascii c)%nat &&
  (nat_of_ascii c <=? nat_of_ascii (snd r))%nat.

Definition in_charset (cs : charset) (c : ascii) : bool :=
  match cs with
  | Digit => in_range c ("0", "9")%char
  | Lit d => Ascii.eqb c d
  | OneOf ranges => existsb (in_range c) ranges
  end.

(** [n] characters of [cs] at the head of [s]: what is left of [s]. *)
Fixpoint consume (cs : charset) (n : nat) (s : string) : option string :=
  match n with
  | O => Some s
  | S n' =>
      match s with
      | String c s' => if in_charset cs c then consume cs n' s' else None
      | EmptyString => None
      end
  end.

(** A branch against the whole of [s], trying every length for a [+].
    The [$] at its end matches at the end of the string and before a
    newline that ends the string. *)
Fixpoint match_branch (items : branch) (s : string) {struct items} : bool :=
  match items with
  | [] => (s =? "") || (s =? nl)
  | (cs, Once) :: rest =>
      match consume cs 1 s with
      | Some s' => match_branch rest s'
      | None => false
      end
  | (cs, Exactly n) :: rest =>
      match consume cs n s with
      | Some s' => match_branch rest s'
      | None => false
      end
  | (cs, OneOrMore) :: rest =>
      (fix many (s : string) : bool :=
         match s with
         | String c s' => in_charset cs c && (match_branch rest s' || many s')
         | EmptyString => false
         end) s
  end.

(** [re.search(p, s)] for a pattern whose branches all start with [^]. *)
Definition search (p : pattern) (s : string) : bool :=
  existsb (fun b => match_branch b s) (branches p).

(** *** Keywords *)

Inductive jtype : Type :=
| TObject | TArray | TString | TNumber | TInteger | TBoolean | TNull.

(** A schema object is the list of its keywords, in the order of the
    text.  A ["$ref"] holds the schema its pointer resolves to. *)
#[warnings="-register-all"]
Inductive keyword : Type :=
| Annotation (name value : string)   (* $schema, $id, title, description *)
| Type_ (t : jtype)
| AdditionalProperties (allowed : bool)
| Required (names : list string)
| Properties (props : list (string * list keyword))
| Pattern (p : pattern)
| MinLength (n : nat)
| MinItems (n : nat)
| UniqueItems (unique : bool)
| Items (s : list keyword)
| Ref (pointer : string) (target : list keyword)
| AllOf (ss : list (list keyword))
| Contains (s : list keyword)
| Const (c : string)
| Enum (allowed : list string)
| Minimum (k : Z)
| Maximum (k : Z).

Definition schema : Type := list keyword.

Definition string_ : schema := [Type_ TString].
Definition boolean_ : schema := [Type_ TBoolean].
Definition nonempty_string : schema := [Type_ TString; MinLength 1].
Definition nonnegative_number : schema := [Type_ TNumber; Minimum 0].
Definition nonnegative_integer : schema := [Type_ TInteger; Minimum 0].
Definition percentage : schema := [Type_ TNumber; Minimum 0; Maximum 100].
Definition array_of (items : schema) : schema := [Type_ TArray; Items items].

(** An object schema with ["additionalProperties": false]. *)
Definition closed_object (required : list string) (props : list (string * schema))
  : schema :=
  [Type_ TObject; AdditionalProperties false; Required required; Properties props].

(** *** [$defs] *)

Definition regionEnum : schema :=
  [Type_ TString; Enum ["USA"; "EU"; "UK"; "CA"; "AU"; "Other"]].
Definition languageEnum : schema :=
  [Type_ TString; Enum ["EN"; "FR"; "ES"; "DE"; "IT"; "PT"; "NL"; "Other"]].
Definition statusEnum : schema :=
  [Type_ TString; Enum ["OK"; "ATTN"; "FAIL"; "TBD"; "FYI"]].
Definition riskLevelEnum : schema :=
  [Type_ TString; Enum ["Low"; "Medium"; "High"; "Prohibited"]].
Definition actionEnum : schema :=
  [Type_ TString; Enum ["Keep"; "Modify"; "Remove"; "Escalate"]].
Definition methodEnum : schema :=
  [Type_ TString; Enum ["Bitmap"; "Vector"; "OCR"; "Manual"]].
Definition symbologyEnum : schema :=
  [Type_ TString; Enum ["UPC-A"; "EAN-13"; "Code128"; "QR"; "DataMatrix"; "Other"]].

Definition ref_statusEnum : schema := [Ref "#/$defs/statusEnum" statusEnum].
Definition ref_regionEnum : schema := [Ref "#/$defs/regionEnum" regionEnum].
Definition ref_languageEnum : schema := [Ref "#/$defs/languageEnum" languageEnum].

Definition fileItem : schema :=
  closed_object ["type"; "filename"; "status_code"]
    [ ("type", [Type_ TString; Enum ["Copy Document"; "Artwork"; "Other"]]);
      ("filename", nonempty_string);
      ("status_code", ref_statusEnum);
      ("note", string_) ].

Definition defs : dict schema :=
  [ ("regionEnum", regionEnum);
    ("languageEnum", languageEnum);
    ("statusEnum", statusEnum);
    ("riskLevelEnum", riskLevelEnum);
    ("actionEnum", actionEnum);
    ("methodEnum", methodEnum);
    ("symbologyEnum", symbologyEnum);
    ("fileItem", fileItem) ].

(** A list of regions: at least one, no duplicates. *)
Definition region_list : schema :=
  [Type_ TArray; MinItems 1; UniqueItems true; Items ref_regionEnum].

(** *** The patterns of the schema *)

Definition digits : charset * quantifier := (Digit, OneOrMore).
Definition dot : charset * quantifier := (Lit ".", Once).
Definition dash : charset * quantifier := (Lit "-", Once).

Definition version_pattern : pattern :=
  {| source := "^\d+\.\d+\.\d+$";
     branches := [[digits; dot; digits; dot; digits]] |}.

Definition due_date_pattern : pattern :=
  {| source := "^TBD$|^\d{4}-\d{2}-\d{2}$";
     branches :=
       [ [(Lit "T", Once); (Lit "B", Once); (Lit "D", Once)];
         [(Digit, Exactly 4); dash; (Digit, Exactly 2); dash; (Digit, Exactly 2)] ] |}.

Definition encoded_digits_pattern : pattern :=
  {| source := "^[0-9X]+$";
     branches := [[(OneOf [("0", "9"); ("X", "X")]%char, OneOrMore)]] |}.

Definition snapshot_id_pattern : pattern :=
  {| source := "^G-\d{3}$";
     branches := [[(Lit "G", Once); dash; (Digit, Exactly 3)]] |}.

(** *** The sections *)

Definition step1 : schema :=
  Annotation "title" "Project Header" ::
  closed_object ["project_name"; "round_version"; "regions_in_scope"; "due_date"]
    [ ("project_name", nonempty_string);
      ("round_version", nonempty_string);
      ("regions_in_scope", region_list);
      ("due_date",
        [Type_ TString; Annotation "description" "TBD or YYYY-MM-DD";
         Pattern due_date_pattern]) ].

(** ["contains"] for a row whose ["type"] is the constant [c]. *)
Definition contains_type (c : string) : schema :=
  [Contains [Type_ TObject; Required ["type"]; Properties [("type", [Const c])]]].

Definition step2 : schema :=
  [ Annotation "title" "Files to Attach";
    Type_ TObject;
    AdditionalProperties false;
    Required ["files"];
    Properties
      [("files", [Type_ TArray; Items [Ref "#/$defs/fileItem" fileItem]; MinItems 2])];
    AllOf [contains_type "Copy Document"; contains_type "Artwork"] ].

Definition copy_quality : schema :=
  array_of
    (closed_object
       ["language"; "original_text"; "recommendation"; "status_code"; "evidence"]
       [ ("language", ref_languageEnum);
         ("original_text", string_);
         ("recommendation", string_);
         ("status_code", ref_statusEnum);
         ("evidence", string_) ]).

Definition claim_risk : schema :=
  array_of
    (closed_object
       ["language"; "claim"; "risk_level"; "rationale"; "regions_impacted"; "action";
        "status_code"]
       [ ("language", ref_languageEnum);
         ("claim", string_);
         ("risk_level", [Ref "#/$defs/riskLevelEnum" riskLevelEnum]);
         ("rationale", string_);
         ("regions_impacted", region_list);
         ("action", [Ref "#/$defs/actionEnum" actionEnum]);
         ("status_code", ref_statusEnum) ]).

Definition label_claim_conversion : schema :=
  array_of
    (closed_object
       ["source"; "declared_ml"; "calculated_fl_oz"; "declared_fl_oz";
        "within_tolerance"; "status_code"; "notes"]
       [ ("source", nonempty_string);
         ("declared_ml", nonnegative_number);
         ("calculated_fl_oz", nonnegative_number);
         ("declared_fl_oz", nonnegative_number);
         ("within_tolerance", boolean_);
         ("status_code", ref_statusEnum);
         ("notes", string_) ]).

Definition artwork_match : schema :=
  array_of
    (closed_object ["field"; "copy_doc_value"; "artwork_value"; "match"; "notes"]
       [ ("field", string_);
         ("copy_doc_value", string_);
         ("artwork_value", string_);
         ("match", boolean_);
         ("notes", string_) ]).

Definition font_size : schema :=
  array_of
    (closed_object
       ["text"; "jurisdiction"; "required_min_pt"; "measured_min_pt"; "method";
        "status_code"; "screenshot_id"]
       [ ("text", string_);
         ("jurisdiction", string_);
         ("required_min_pt", nonnegative_number);
         ("measured_min_pt", nonnegative_number);
         ("method", [Ref "#/$defs/methodEnum" methodEnum]);
         ("status_code", ref_statusEnum);
         ("screenshot_id", string_) ]).

Definition barcode : schema :=
  array_of
    (closed_object
       ["symbology"; "encoded_digits"; "check_digit_valid"; "x_dim_mm";
        "quiet_zone_mm"; "module_count"; "print_contrast"; "scan_test"]
       [ ("symbology", [Ref "#/$defs/symbologyEnum" symbologyEnum]);
         ("encoded_digits", [Type_ TString; Pattern encoded_digits_pattern]);
         ("check_digit_valid", boolean_);
         ("x_dim_mm", nonnegative_number);
         ("quiet_zone_mm", nonnegative_number);
         ("module_count", nonnegative_integer);
         ("print_contrast", percentage);
         ("scan_test", [Type_ TString; Enum ["Pass"; "Fail"; "N/A"]]) ]).

Definition visual_snapshots : schema :=
  array_of
    (closed_object ["id"; "what"; "where"; "fix"; "linked_rows"; "status_after_fix"]
       [ ("id", [Type_ TString; Pattern snapshot_id_pattern]);
         ("what", string_);
         ("where", string_);
         ("fix", string_);
         ("linked_rows", array_of string_);
         ("status_after_fix", [Type_ TString; Enum ["TBD"; "Resolved"; "Rejected"]]) ]).

Definition score_summary : schema :=
  closed_object ["summary_rows"; "top_fixes"; "attention"; "next_steps"]
    [ ("summary_rows",
        array_of
          (closed_object ["area"; "checks"; "matches"; "score_percent"; "notes"]
             [ ("area", string_);
               ("checks", nonnegative_integer);
               ("matches", nonnegative_integer);
               ("score_percent", percentage);
               ("notes", string_) ]));
      ("top_fixes", array_of string_);
      ("attention", array_of string_);
      ("next_steps", array_of string_) ].

Definition step3 : schema :=
  Annotation "title" "Core Verification Tables (A–H)" ::
  closed_object
    ["copy_quality"; "claim_risk"; "label_claim_conversion"; "artwork_match";
     "font_size"; "barcode"; "visual_snapshots"; "score_summary"]
    [ ("copy_quality", copy_quality);
      ("claim_risk", claim_risk);
      ("label_claim_conversion", label_claim_conversion);
      ("artwork_match", artwork_match);
      ("font_size", font_size);
      ("barcode", barcode);
      ("visual_snapshots", visual_snapshots);
      ("score_summary", score_summary) ].

Definition step4 : schema :=
  [ Annotation "title" "Optional Fields";
    Type_ TObject;
    AdditionalProperties false;
    Properties
      [ ("version_change_log", string_);
        ("creative_brand_voice_check", string_);
        ("one_page_pdf_summary_export", boolean_) ] ].

Definition step5 : schema :=
  Annotation "title" "Special Notes / Constraints" ::
  closed_object ["constraints"]
    [ ("constraints",
        array_of
          (closed_object ["constraint"; "source"; "applies_to"; "notes"]
             [ ("constraint", string_);
               ("source",
                 [Type_ TString;
                  Enum ["Retailer"; "Regulatory"; "Brand"; "Legal"; "Other"]]);
               ("applies_to", string_);
               ("notes", string_) ])) ].

Definition version : schema :=
  [ Type_ TString;
    Annotation "description" "Schema/user payload version (semantic version preferred)";
    Pattern version_pattern ].

(** [json.loads(SCHEMA_JSON)] *)
Definition SCHEMA : schema :=
  Annotation "$schema" "https://json-schema.org/draft/2020-12/schema" ::
  Annotation "$id" "https://example.com/sop.artwork-review.schema.json" ::
  Annotation "title" "Artwork Review SOP — Steps 1–5" ::
  closed_object ["step1"; "step2"; "step3"; "step5"]
    [ ("version", version);
      ("step1", step1);
      ("step2", step2);
      ("step3", step3);
      ("step4", step4);
      ("step5", step5) ].

End Schema.

(* ================================================================== *)
(** ** Reading a schema *)

Module SchemaView.
Import Py Json Schema.

(** The schemas directly below a keyword. *)
Definition subschemas (k : keyword) : list schema :=
  match k with
  | Properties props => map snd props
  | Items s | Ref _ s | Contains s => [s]
  | AllOf ss => ss
  | _ => []
  end.

(** Induction over a keyword and the schemas nested in it. *)
Section KeywordInduction.
Variable P : keyword -> Prop.
Hypothesis step : forall k, Forall (Forall P) (subschemas k) -> P k.

Fixpoint keyword_nested_ind (k : keyword) : P k :=
  let all :=
    fix all (s : list keyword) : Forall P s :=
      match s with
      | [] => Forall_nil P
      | k' :: s' => Forall_cons k' (keyword_nested_ind k') (all s')
      end in
  step k
    (match k return Forall (Forall P) (subschemas k) with
     | Properties props =>
         (fix each (ps : list (string * list keyword))
            : Forall (Forall P) (map snd ps) :=
            match ps with
            | [] => Forall_nil _
            | (_, s) :: ps' => Forall_cons s (all s) (each ps')
            end) props
     | Items s | Ref _ s | Contains s => Forall_cons s (all s) (Forall_nil _)
     | AllOf ss =>
         (fix each (ss : list (list keyword)) : Forall (Forall P) ss :=
            match ss with
            | [] => Forall_nil _
            | s :: ss' => Forall_cons s (all s) (each ss')
            end) ss
     | _ => Forall_nil _
     end).
End KeywordInduction.

(** Whether the schema declares the type [t]. *)
Definition has_type (s : schema) (t : jtype) : bool :=
  existsb (fun k => match k, t with
                    | Type_ TObject, TObject
                    | Type_ TArray, TArray
                    | Type_ TString, TString => true
                    | _, _ => false
                    end) s.

Definition required_names (s : schema) : list string :=
  flat_map (fun k => match k with Required names => names | _ => [] end) s.

Definition properties (s : schema) : list (string * schema) :=
  flat_map (fun k => match k with Properties props => props | _ => [] end) s.

Definition items_schemas (s : schema) : list schema :=
  flat_map (fun k => match k with Items sub => [sub] | _ => [] end) s.

Definition ref_targets (s : schema) : list schema :=
  flat_map (fun k => match k with Ref _ target => [target] | _ => [] end) s.

Definition enum_values (s : schema) : list (list string) :=
  flat_map (fun k => match k with Enum allowed => [allowed] | _ => [] end) s.

(** The schema a pointer of the form [#/$defs/name] refers to. *)
Definition resolve_pointer (pointer : string) : option schema :=
  if startswith "#/$defs/" pointer
  then get defs (substring 8 (String.length pointer - 8) pointer)
  else None.

(** Every reference below the keyword holds the schema its pointer
    refers to. *)
Fixpoint references_resolved (k : keyword) : Prop :=
  let all := fix all (s : list keyword) : Prop :=
               match s with
               | [] => True
               | k' :: s' => references_resolved k' /\ all s'
               end in
  match k with
  | Ref pointer target => resolve_pointer pointer = Some target /\ all target
  | Properties props =>
      (fix each (ps : list (string * list keyword)) : Prop :=
         match ps with
         | [] => True
         | (_, s) :: ps' => all s /\ each ps'
         end) props
  | Items s | Contains s => all s
  | AllOf ss =>
      (fix each (ss : list (list keyword)) : Prop :=
         match ss with
         | [] => True
         | s :: ss' => all s /\ each ss'
         end) ss
  | _ => True
  end.

End SchemaView.

(* ================================================================== *)
(** ** The validator

    [validate_payload] runs [Draft202012Validator(schema).iter_errors] of
    the [jsonschema] package over the document.  The package is a
    dependency, not part of the program; its [iter_errors] is modelled here
    for the keywords [SCHEMA_JSON] uses, with the meaning JSON Schema
    2020-12 gives them: every keyword of a schema object is applied in turn
    and yields its own errors, and a keyword that does not apply to the type
    of the instance yields none.  The text of a message depends on the
    release of the package and is a parameter of [validate_payload]. *)

Module Validator.
Import Py Json Schema.

Inductive segment : Type :=
| Key (k : string)
| Index (i : nat).

(** [ValidationError]: where the instance failed ([path]), the keyword
    that failed ([validator] with its value), the failing instance, and
    the property names the message cites ([cited]: the missing property
    of [required], the unexpected ones of [additionalProperties]). *)
Record ValidationError : Type := mk_error {
  path : list segment;
  validator : keyword;
  instance : json;
  cited : list string
}.

Definition fail (k : keyword) (inst : json) (names : list string) : ValidationError :=
  {| path := []; validator := k; instance := inst; cited := names |}.

(** [descend]: the errors of a child carry the child's key or index in
    front of their path. *)
Definition descend (seg : segment) (errors : list ValidationError)
  : list ValidationError :=
  map (fun e => {| path := seg :: path e; validator := validator e;
                   instance := instance e; cited := cited e |}) errors.

Definition is_type (inst : json) (t : jtype) : bool :=
  match t, inst with
  | TObject, JObject _ => true
  | TArray, JArray _ => true
  | TString, JString _ => true
  | TBoolean, JBool _ => true
  | TNull, JNull => true
  | TNumber, JNum _ => true
  | TInteger, JNum (NInt _) => true
  | TInteger, JNum (NFloat f) =>
      match float_integral f with Some _ => true | None => false end
  | _, _ => false
  end.

(** [schema.get("properties", {})]: the declared property names. *)
Definition declared_props (s : schema) : list string :=
  flat_map (fun k => match k with Properties ps => map fst ps | _ => [] end) s.

Definition mem (x : string) (l : list string) : bool := existsb (String.eqb x) l.

(** No two items of the array are equal. *)
Fixpoint uniq (items : list json) : bool :=
  match items with
  | [] => true
  | x :: rest => negb (existsb (equal x) rest) && uniq rest
  end.

(** [enumerate(items, start)] *)
Fixpoint enumerate {A : Type} (start : nat) (items : list A) : list (nat * A) :=
  match items with
  | [] => []
  | x :: rest => (start, x) :: enumerate (S start) rest
  end.

Definition is_nil {A : Type} (l : list A) : bool :=
  match l with [] => true | _ => false end.

(** The errors one keyword yields for an instance; [declared] is the
    ["properties"] of the schema object the keyword sits in. *)
Fixpoint keyword_errors (declared : list string) (k : keyword) (inst : json)
  {struct k} : list ValidationError :=
  match k with
  | Annotation _ _ => []
  | Type_ t => if is_type inst t then [] else [fail k inst []]
  | AdditionalProperties allowed =>
      match inst with
      | JObject o =>
          let extras := filter (fun name => negb (mem name declared)) (map fst o) in
          if allowed || is_nil extras then [] else [fail k inst extras]
      | _ => []
      end
  | Required names =>
      match inst with
      | JObject o =>
          flat_map (fun name => if contains o name then [] else [fail k inst [name]])
                   names
      | _ => []
      end
  | Properties props =>
      match inst with
      | JObject o =>
          flat_map
            (fun p =>
               match p with
               | (name, sub) =>
                   match get o name with
                   | Some v =>
                       descend (Key name)
                         (flat_map (fun k' => keyword_errors (declared_props sub) k' v)
                                   sub)
                   | None => []
                   end
               end)
            props
      | _ => []
      end
  | Pattern p =>
      match inst with
      | JString s => if search p s then [] else [fail k inst []]
      | _ => []
      end
  | MinLength n =>
      match inst with
      | JString s => if (len s <? n)%nat then [fail k inst []] else []
      | _ => []
      end
  | MinItems n =>
      match inst with
      | JArray items => if (List.length items <? n)%nat then [fail k inst []] else []
      | _ => []
      end
  | UniqueItems unique =>
      match inst with
      | JArray items => if unique && negb (uniq items) then [fail k inst []] else []
      | _ => []
      end
  | Items sub =>
      match inst with
      | JArray items =>
          flat_map
            (fun ix =>
               descend (Index (fst ix))
                 (flat_map (fun k' => keyword_errors (declared_props sub) k' (snd ix))
                           sub))
            (enumerate 0 items)
      | _ => []
      end
  | Ref _ target =>
      flat_map (fun k' => keyword_errors (declared_props target) k' inst) target
  | AllOf subs =>
      flat_map
        (fun sub => flat_map (fun k' => keyword_errors (declared_props sub) k' inst) sub)
        subs
  | Contains sub =>
      match inst with
      | JArray items =>
          if existsb
               (fun item =>
                  is_nil (flat_map
                            (fun k' => keyword_errors (declared_props sub) k' item) sub))
               items
          then [] else [fail k inst []]
      | _ => []
      end
  | Const c =>
      match inst with
      | JString s => if s =? c then [] else [fail k inst []]
      | _ => [fail k inst []]
      end
  | Enum allowed =>
      match inst with
      | JString s => if mem s allowed then [] else [fail k inst []]
      | _ => [fail k inst []]
      end
  | Minimum bound =>
      match inst with
      | JNum x => if lt_int x bound then [fail k inst []] else []
      | _ => []
      end
  | Maximum bound =>
      match inst with
      | JNum x => if gt_int x bound then [fail k inst []] else []
      | _ => []
      end
  end.

(** [Draft202012Validator(s).iter_errors(inst)] *)
Definition iter_errors (s : schema) (inst : json) : list ValidationError :=
  flat_map (fun k => keyword_errors (declared_props s) k inst) s.

(** [Draft202012Validator(s).is_valid(inst)] *)
Definition is_valid (s : schema) (inst : json) : bool := is_nil (iter_errors s inst).

(** *** Sorting by path

    [sorted(..., key=lambda e: list(e.path))] compares two paths as
    Python lists: at the first position where they differ the segments
    decide, otherwise the shorter list is the smaller.  Two keys compare
    as strings and two indices as integers.  A key against an index would
    raise; that comparison is given a value here ([Index] first) and
    [paths_comparable] below shows that it never takes place. *)

Definition segment_compare (a b : segment) : comparison :=
  match a, b with
  | Key x, Key y => String.compare x y
  | Index i, Index j => Nat.compare i j
  | Index _, Key _ => Lt
  | Key _, Index _ => Gt
  end.

Fixpoint path_compare (p q : list segment) : comparison :=
  match p, q with
  | [], [] => Eq
  | [], _ :: _ => Lt
  | _ :: _, [] => Gt
  | a :: p', b :: q' =>
      match segment_compare a b with
      | Eq => path_compare p' q'
      | c => c
      end
  end.

(** [list(x.path) < list(y.path)] *)
Definition path_lt (x y : ValidationError) : bool :=
  match path_compare (path x) (path y) with
  | Lt => true
  | _ => false
  end.

(** [mixed p q]: the first place where the two paths differ holds a key
    in one and an index in the other, the comparison Python refuses. *)
Fixpoint mixed (p q : list segment) : bool :=
  match p, q with
  | Key a :: p', Key b :: q' => (a =? b) && mixed p' q'
  | Index i :: p', Index j :: q' => (i =? j)%nat && mixed p' q'
  | Key _ :: _, Index _ :: _ | Index _ :: _, Key _ :: _ => true
  | _, _ => false
  end.

(** A stable sort: an element goes behind the elements that are smaller
    and in front of the first that is not. *)
Fixpoint insert (e : ValidationError) (sorted : list ValidationError)
  : list ValidationError :=
  match sorted with
  | [] => [e]
  | y :: rest => if path_lt y e then y :: insert e rest else e :: y :: rest
  end.

Fixpoint sorted_by_path (errors : list ValidationError) : list ValidationError :=
  match errors with
  | [] => []
  | e :: rest => insert e (sorted_by_path rest)
  end.

(** *** [validate_payload] *)

Definition segment_str (seg : segment) : string :=
  match seg with
  | Key k => k
  | Index i => str_int (Z.of_nat i)
  end.

(** ["/".join(map(str, e.path)) or "<root>"] *)
Definition path_str (p : list segment) : string :=
  let joined := join "/" (map segment_str p) in
  if joined =? "" then "<root>" else joined.

Section Validate.
(** [e.message]: the text the package writes for an error. *)
Variable message : ValidationError -> string.

Definition error_line (e : ValidationError) : string :=
  path_str (path e) ++ ": " ++ message e.

Definition validate_payload (payload : json) : result json :=
  let errors := sorted_by_path (iter_errors SCHEMA payload) in
  if negb (is_nil errors) then
    let msgs := fold_left (fun msgs e => (msgs ++ [error_line e])%list) errors [] in
    Raise (ValueError ("Invalid SOP payload:" ++ nl ++ join nl msgs))
  else Ok payload.
End Validate.

End Validator.

(* ================================================================== *)
(** ** The orchestrator, from the parsed payload on *)

Module Main.
Import Py Json Validator Render.

(** How a run of [main] ends once the input has been parsed: the report
    is written, or the process exits with a status and a text on the
    error stream, or an exception of the renderer escapes. *)
Inductive outcome : Type :=
| Wrote (md : string)
| Exit (status : Z) (stderr : string)
| Uncaught (e : exn).

(** [str(e)] for the exception [validate_payload] raises. *)
Definition exn_str (e : exn) : string :=
  match e with
  | ValueError msg => msg
  | _ => ""
  end.

Section Main.
Variable message : ValidationError -> string.
Variable py_repr : json -> string.

Definition main (payload : json) : outcome :=
  match validate_payload message payload with
  | Raise e => Exit 1 (exn_str e)
  | Ok _ =>
      match render_report py_repr payload with
      | Ok md => Wrote md
      | Raise e => Uncaught e
      end
  end.
End Main.

End Main.

(* ================================================================== *)
(** ** Conformance, as the specification words it

    A second reading of the schema, independent of the error list: whether
    a document satisfies it.  An object node has no undeclared property and
    has every required one; a scalar has its type, is in its enumeration,
    matches its pattern and lies in its range; an array has its minimum
    length, pairwise distinct items when uniqueness is declared, and
    conforming items; a containment rule asks for one conforming item. *)

Module Conformance.
Import Py Json Schema Validator.

Fixpoint satisfies (declared : list string) (k : keyword) (inst : json)
  {struct k} : bool :=
  match k with
  | Annotation _ _ => true
  | Type_ t => is_type inst t
  | AdditionalProperties allowed =>
      match inst with
      | JObject o => allowed || forallb (fun kv => mem (fst kv) declared) o
      | _ => true
      end
  | Required names =>
      match inst with
      | JObject o => forallb (contains o) names
      | _ => true
      end
  | Properties props =>
      match inst with
      | JObject o =>
          forallb
            (fun p =>
               match p with
               | (name, sub) =>
                   match get o name with
                   | Some v => forallb (fun k' => satisfies (declared_props sub) k' v) sub
                   | None => true
                   end
               end)
            props
      | _ => true
      end
  | Pattern p =>
      match inst with JString s => search p s | _ => true end
  | MinLength n =>
      match inst with JString s => (n <=? len s)%nat | _ => true end
  | MinItems n =>
      match inst with JArray items => (n <=? List.length items)%nat | _ => true end
  | UniqueItems unique =>
      match inst with JArray items => negb unique || uniq items | _ => true end
  | Items sub =>
      match inst with
      | JArray items =>
          forallb
            (fun item => forallb (fun k' => satisfies (declared_props sub) k' item) sub)
            items
      | _ => true
      end
  | Ref _ target => forallb (fun k' => satisfies (declared_props target) k' inst) target
  | AllOf subs =>
      forallb
        (fun sub => forallb (fun k' => satisfies (declared_props sub) k' inst) sub) subs
  | Contains sub =>
      match inst with
      | JArray items =>
          existsb
            (fun item => forallb (fun k' => satisfies (declared_props sub) k' item) sub)
            items
      | _ => true
      end
  | Const c =>
      match inst with JString s => s =? c | _ => false end
  | Enum allowed =>
      match inst with JString s => mem s allowed | _ => false end
  | Minimum bound =>
      match inst with JNum x => negb (lt_int x bound) | _ => true end
  | Maximum bound =>
      match inst with JNum x => negb (gt_int x bound) | _ => true end
  end.

Definition conforms (s : schema) (inst : json) : bool :=
  forallb (fun k => satisfies (declared_props s) k inst) s.

(** A valid Document. *)
Definition valid_document (payload : json) : bool := conforms SCHEMA payload.

(** The value a path of field names and array indices leads to. *)
Fixpoint resolve (doc : json) (p : list segment) : option json :=
  match p with
  | [] => Some doc
  | Key name :: p' =>
      match doc with
      | JObject o =>
          match get o name with
          | Some v => resolve v p'
          | None => None
          end
      | _ => None
      end
  | Index i :: p' =>
      match doc with
      | JArray items =>
          match nth_error items i with
          | Some v => resolve v p'
          | None => None
          end
      | _ => None
      end
  end.

(** The keywords that only pass the instance, or its parts, on to
    other schemas. *)
Definition applicator (k : keyword) : bool :=
  match k with
  | Properties _ | Items _ | Ref _ _ | AllOf _ => true
  | _ => false
  end.

(** The keywords whose failure names properties. *)
Definition names_cited (k : keyword) : bool :=
  match k with
  | Required _ | AdditionalProperties _ => true
  | _ => false
  end.

(** [fails declared k w names]: the value [w] does not satisfy the
    keyword [k].  [names] are the properties at fault: one missing property
    for [required], so that every missing field is a failure of its own,
    and the undeclared properties together for [additionalProperties]. *)
Inductive fails (declared : list string) : keyword -> json -> list string -> Prop :=
| fails_required (names : list string) (o : dict json) (name : string) :
    In name names -> contains o name = false ->
    fails declared (Required names) (JObject o) [name]
| fails_additional (o : dict json) (extras : list string) :
    extras = filter (fun name => negb (mem name declared)) (map fst o) ->
    extras <> [] ->
    fails declared (AdditionalProperties false) (JObject o) extras
| fails_other (k : keyword) (w : json) :
    applicator k = false -> names_cited k = false ->
    satisfies declared k w = false ->
    fails declared k w [].

(** [Violation s doc p k w names]: somewhere in the document, at path
    [p], sits the value [w], which the schema requires to satisfy the
    keyword [k] and which fails it.  The schema reaches the value through
    the declared properties of objects, the items of arrays, references and
    conjunctions. *)
Inductive Violation
  : schema -> json -> list segment -> keyword -> json -> list string -> Prop :=
| V_here (s : schema) (w : json) (k : keyword) (names : list string) :
    In k s -> fails (declared_props s) k w names ->
    Violation s w [] k w names
| V_property (s : schema) (props : list (string * schema)) (name : string)
             (sub : schema) (o : dict json) (x : json) p k w names :
    In (Properties props) s -> In (name, sub) props -> get o name = Some x ->
    Violation sub x p k w names ->
    Violation s (JObject o) (Key name :: p) k w names
| V_item (s sub : schema) (items : list json) (i : nat) (x : json) p k w names :
    In (Items sub) s -> nth_error items i = Some x ->
    Violation sub x p k w names ->
    Violation s (JArray items) (Index i :: p) k w names
| V_ref (s : schema) (pointer : string) (target : schema) (doc : json) p k w names :
    In (Ref pointer target) s ->
    Violation target doc p k w names ->
    Violation s doc p k w names
| V_allOf (s : schema) (subs : list schema) (sub : schema) (doc : json) p k w names :
    In (AllOf subs) s -> In sub subs ->
    Violation sub doc p k w names ->
    Violation s doc p k w names.

(** Not after, in the order of paths: at the first segment where two
    paths differ the smaller key or index decides, and a path comes
    before its extensions. *)
Definition path_le (x y : ValidationError) : Prop :=
  path_compare (path x) (path y) <> Gt.

(** [reports errors p k w names]: the list holds the error at path [p]
    for the keyword [k], the instance [w] and the properties [names]. *)
Definition reports (errors : list ValidationError) (p : list segment)
           (k : keyword) (w : json) (names : list string) : Prop :=
  In {| path := p; validator := k; instance := w; cited := names |} errors.

(** A keyword yields no error exactly on the instances that satisfy it. *)
Definition agrees (k : keyword) : Prop :=
  forall declared inst,
    is_nil (keyword_errors declared k inst) = satisfies declared k inst.

(** The errors a keyword yields are violations. *)
Definition sound (k0 : keyword) : Prop :=
  forall (s : schema) (inst : json) (e : ValidationError),
    In k0 s ->
    In e (keyword_errors (declared_props s) k0 inst) ->
    Violation s inst (path e) (validator e) (instance e) (cited e).

End Conformance.

(* ================================================================== *)
(** ** The region display mapping, as the specification words it *)

Module RegionSpec.
Import Py Regions.

(** (1) trim whitespace, upper-case, strip period characters *)
Definition normalize (label : string) : string :=
  remove_char "." (upper (strip label)).

(** (2) resolve through the alias table to a canonical key *)
Definition resolve (key : string) : string :=
  match get REGION_ALIASES key with
  | Some canonical => canonical
  | None => key
  end.

(** (3) look the canonical key up in the flag table, (4) with a fixed
    fallback symbol when it is absent *)
Definition symbol (canonical : string) : string :=
  match get REGION_FLAGS canonical with
  | Some flag => flag
  | None => "🌐"
  end.

Definition display_symbol (label : string) : string :=
  symbol (resolve (normalize label)).

(** The cell of one label: the symbol, a space, the label as given. *)
Definition cell (label : string) : string :=
  strip (display_symbol label ++ " " ++ label).

Definition cells (labels : list string) : string := join ", " (map cell labels).

End RegionSpec.

(* ================================================================== *)
(** ** The report, as the specification words it

    The report is a sequence of table artifacts in document order, a blank
    line between two artifacts and one newline at the end.  An artifact is
    the title of its table, a blank line, the header line, the separator
    line, and one line per data row. *)

Module ReportSpec.
Import Py Json Regions.

(** The value of a field of a section or of a row. *)
Definition field (x : json) (name : string) : json :=
  match x with
  | JObject o => get_default o name JNull
  | _ => JNull
  end.

Definition present (x : json) (name : string) : bool :=
  match x with
  | JObject o => contains o name
  | _ => false
  end.

(** The rows of a table section: the items of its array. *)
Definition rows_of (v : json) : list json :=
  match v with
  | JArray items => items
  | _ => []
  end.

(** The labels of a list of strings. *)
Definition strings (v : json) : list string :=
  flat_map (fun x => match x with JString s => [s] | _ => [] end) (rows_of v).

(** The symbol of the status code of a row. *)
Definition status (x : json) : json :=
  match field x "status_code" with
  | JString code => JString (get_default STATUS_EMOJI code "")
  | _ => JString ""
  end.

Definition yes_no (x : json) (name yes no : string) : json :=
  JString (if truthy (field x name) then yes else no).

Definition joined (x : json) (name : string) : json :=
  JString (join ", " (strings (field x name))).

Section Report.
Variable py_repr : json -> string.

Definition line (cells : list string) : string := "| " ++ join " | " cells ++ " |".

(** One table artifact; a data row holds values, shown by [str]. *)
Definition table (title : string) (header : list string) (rows : list (list json))
  : string :=
  join nl
    (title
     :: ""
     :: line header
     :: ("|" ++ join "|" (repeat "---" (List.length header)) ++ "|")
     :: map (fun r => line (map (py_str py_repr) r)) rows).

Definition step1_table (d : json) : string :=
  table "1️⃣ Project Header" ["Field"; "Fill In"]
    [ [JString "Project Name"; field d "project_name"];
      [JString "Round / Version"; field d "round_version"];
      [JString "Regions in Scope";
       JString (RegionSpec.cells (strings (field d "regions_in_scope")))];
      [JString "Due Date"; field d "due_date"] ].

Definition step2_table (d : json) : string :=
  table "2️⃣ Files to Attach" ["Type"; "Filename"; "Status"; "Note"]
    (map (fun f => [field f "type"; field f "filename"; status f;
                    if present f "note" then field f "note" else JString ""])
         (rows_of (field d "files"))).

Definition copy_quality_table (v : json) : string :=
  table "A. Copy Quality"
    ["Language"; "Original Text"; "Recommendation"; "Status"; "Evidence"]
    (map (fun x => [field x "language"; field x "original_text";
                    field x "recommendation"; status x; field x "evidence"])
         (rows_of v)).

Definition claim_risk_table (v : json) : string :=
  table "B. Claim Risk"
    ["Language"; "Claim (quote)"; "Risk Level"; "Rationale"; "Regions"; "Action";
     "Status"]
    (map (fun x => [field x "language"; field x "claim"; field x "risk_level";
                    field x "rationale"; joined x "regions_impacted";
                    field x "action"; status x])
         (rows_of v)).

Definition label_claim_conversion_table (v : json) : string :=
  table "C. Label-Claim Conversion"
    ["Source"; "Declared (mL)"; "Calculated (fl oz)"; "Declared (fl oz)";
     "Within ±0.10"; "Status"; "Notes"]
    (map (fun x => [field x "source"; field x "declared_ml";
                    field x "calculated_fl_oz"; field x "declared_fl_oz";
                    yes_no x "within_tolerance" "Yes" "No"; status x;
                    field x "notes"])
         (rows_of v)).

Definition artwork_match_table (v : json) : string :=
  table "D. Artwork Match"
    ["Field"; "Copy Doc Value"; "Artwork Value"; "Match"; "Notes"]
    (map (fun x => [field x "field"; field x "copy_doc_value";
                    field x "artwork_value"; yes_no x "match" "✅" "❌";
                    field x "notes"])
         (rows_of v)).

Definition font_size_table (v : json) : string :=
  table "E. Font Size"
    ["Text String / Field"; "Jurisdiction"; "Required Min (pt)";
     "Measured Min (pt)"; "Method"; "Status"; "Screenshot ID"]
    (map (fun x => [field x "text"; field x "jurisdiction";
                    field x "required_min_pt"; field x "measured_min_pt";
                    field x "method"; status x; field x "screenshot_id"])
         (rows_of v)).

Definition barcode_table (v : json) : string :=
  table "F. Barcode"
    ["Symbology"; "Encoded Digits"; "Check Digit Valid"; "X-Dim (mm)";
     "Quiet Zone (mm)"; "Module Count"; "Print Contrast"; "Scan Test"]
    (map (fun x => [field x "symbology"; field x "encoded_digits";
                    yes_no x "check_digit_valid" "Yes" "No"; field x "x_dim_mm";
                    field x "quiet_zone_mm"; field x "module_count";
                    field x "print_contrast"; field x "scan_test"])
         (rows_of v)).

Definition visual_snapshots_table (v : json) : string :=
  table "G. Visual Snapshots"
    ["ID"; "What"; "Where"; "Fix"; "Linked Rows"; "Status After Fix"]
    (map (fun x => [field x "id"; field x "what"; field x "where"; field x "fix";
                    joined x "linked_rows"; field x "status_after_fix"])
         (rows_of v)).

Definition score_table (d : json) : string :=
  table "H. Score & Summary" ["Area"; "Checks"; "Matches"; "Score %"; "Notes"]
    (map (fun x => [field x "area"; field x "checks"; field x "matches";
                    field x "score_percent"; field x "notes"])
         (rows_of (field d "summary_rows"))).

(** A one-column table, one row per item of a list. *)
Definition item_table (title : string) (v : json) : string :=
  table title ["Item"] (map (fun it => [it]) (rows_of v)).

Definition step4_table (d : json) : string :=
  table "4️⃣ Optional Fields" ["Field"; "Content"]
    ((if present d "version_change_log"
      then [[JString "Version-Change Log"; field d "version_change_log"]]
      else [])
     ++ (if present d "creative_brand_voice_check"
         then [[JString "Creative Brand-Voice Check";
                field d "creative_brand_voice_check"]]
         else [])
     ++ (if present d "one_page_pdf_summary_export"
         then [[JString "One-Page PDF Summary Export";
                yes_no d "one_page_pdf_summary_export" "Yes" "No"]]
         else []))%list.

Definition step5_table (d : json) : string :=
  table "5️⃣ Special Notes / Constraints"
    ["Constraint"; "Source"; "Applies To (Region/Panel)"; "Notes"]
    (map (fun x => [field x "constraint"; field x "source"; field x "applies_to";
                    field x "notes"])
         (rows_of (field d "constraints"))).

(** The artifacts of step 3: the tables A to H, the last followed by
    its three lists. *)
Definition step3_artifacts (d : json) : list string :=
  [ copy_quality_table (field d "copy_quality");
    claim_risk_table (field d "claim_risk");
    label_claim_conversion_table (field d "label_claim_conversion");
    artwork_match_table (field d "artwork_match");
    font_size_table (field d "font_size");
    barcode_table (field d "barcode");
    visual_snapshots_table (field d "visual_snapshots");
    score_table (field d "score_summary");
    item_table "Top Fixes (❌)" (field (field d "score_summary") "top_fixes");
    item_table "Attention (⚠️)" (field (field d "score_summary") "attention");
    item_table "Next Steps" (field (field d "score_summary") "next_steps") ].

(** The artifacts of a document, in document order. *)
Definition artifacts (doc : json) : list string :=
  ([step1_table (field doc "step1"); step2_table (field doc "step2")]
   ++ step3_artifacts (field doc "step3")
   ++ (if present doc "step4" then [step4_table (field doc "step4")] else [])
   ++ [step5_table (field doc "step5")])%list.

Definition report (doc : json) : string :=
  join (nl ++ nl) (artifacts doc) ++ nl.

(** The lines of the data rows of a table, each behind a newline. *)
Definition data_lines (rows : list (list json)) : string :=
  fold_right (fun r rest => nl ++ line (map (py_str py_repr) r) ++ rest) "" rows.
End Report.

(** The separator line under a header row. *)
Definition separator (header : list string) : string :=
  "|" ++ join "|" (repeat "---" (List.length header)) ++ "|".

(** The titles and header rows of the tables of step 3. *)
Definition step3_layout : list (string * list string) :=
  [ ("A. Copy Quality",
      ["Language"; "Original Text"; "Recommendation"; "Status"; "Evidence"]);
    ("B. Claim Risk",
      ["Language"; "Claim (quote)"; "Risk Level"; "Rationale"; "Regions"; "Action";
       "Status"]);
    ("C. Label-Claim Conversion",
      ["Source"; "Declared (mL)"; "Calculated (fl oz)"; "Declared (fl oz)";
       "Within ±0.10"; "Status"; "Notes"]);
    ("D. Artwork Match",
      ["Field"; "Copy Doc Value"; "Artwork Value"; "Match"; "Notes"]);
    ("E. Font Size",
      ["Text String / Field"; "Jurisdiction"; "Required Min (pt)";
       "Measured Min (pt)"; "Method"; "Status"; "Screenshot ID"]);
    ("F. Barcode",
      ["Symbology"; "Encoded Digits"; "Check Digit Valid"; "X-Dim (mm)";
       "Quiet Zone (mm)"; "Module Count"; "Print Contrast"; "Scan Test"]);
    ("G. Visual Snapshots",
      ["ID"; "What"; "Where"; "Fix"; "Linked Rows"; "Status After Fix"]);
    ("H. Score & Summary", ["Area"; "Checks"; "Matches"; "Score %"; "Notes"]);
    ("Top Fixes (❌)", ["Item"]);
    ("Attention (⚠️)", ["Item"]);
    ("Next Steps", ["Item"]) ].

(** The titles and header rows of a report, in document order; the table
    of step 4 is there when the document has the section. *)
Definition layout (with_step4 : bool) : list (string * list string) :=
  ([ ("1️⃣ Project Header", ["Field"; "Fill In"]);
     ("2️⃣ Files to Attach", ["Type"; "Filename"; "Status"; "Note"]) ]
   ++ step3_layout
   ++ (if with_step4 then [("4️⃣ Optional Fields", ["Field"; "Content"])] else [])
   ++ [ ("5️⃣ Special Notes / Constraints",
          ["Constraint"; "Source"; "Applies To (Region/Panel)"; "Notes"]) ])%list.

(** The text ends with a vertical bar. *)
Definition ends_with_bar (s : string) : Prop := exists body, s = body ++ "|".

End ReportSpec.

(* ================================================================== *)
(** ** Sample documents

    The end-to-end scenario of the specification: a one-region header, a
    list of attached files, every table of step 3 empty, no constraints. *)

Module Samples.
Import Py Json.

Definition file (type : string) : json :=
  JObject [("type", JString type); ("filename", JString "a.pdf");
           ("status_code", JString "OK")].

Definition step1 : json :=
  JObject [("project_name", JString "X"); ("round_version", JString "1.0");
           ("regions_in_scope", JArray [JString "USA"]);
           ("due_date", JString "2025-01-01")].

Definition step3 : json :=
  JObject [("copy_quality", JArray []); ("claim_risk", JArray []);
           ("label_claim_conversion", JArray []); ("artwork_match", JArray []);
           ("font_size", JArray []); ("barcode", JArray []);
           ("visual_snapshots", JArray []);
           ("score_summary",
             JObject [("summary_rows", JArray []); ("top_fixes", JArray []);
                      ("attention", JArray []); ("next_steps", JArray [])])].

Definition sections (files : list json) : dict json :=
  [ ("step1", step1);
    ("step2", JObject [("files", JArray files)]);
    ("step3", step3);
    ("step5", JObject [("constraints", JArray [])]) ].

Definition document (files : list json) : json := JObject (sections files).

Definition two_files : list json := [file "Copy Document"; file "Artwork"].



End Samples.

(* ================================================================== *)
(** ** The command line

    [main] from its arguments on.  What the run finds outside the program
    is its environment: whether the [jsonschema] package can be imported,
    what reading and parsing the input file gives (the parsed payload, or
    the text of the exception), and which paths can be written. *)

Module Cli.
Import Py Json Validator Render.

(** The parsed arguments; a path is the text [str] gives for it. *)
Record arguments : Type := {
  inp : option string;            (* --in *)
  out : option string;            (* --out *)
  dump_schema : option string     (* --dump-schema *)
}.

Record environment : Type := {
  jsonschema_importable : bool;
  (* [json.loads(path.read_text(encoding="utf-8"))] *)
  load : string -> string + json;
  (* whether [path.write_text] succeeds *)
  writable : string -> bool
}.

(** What a run does that can be seen from outside, in order. *)
Inductive event : Type :=
| Stdout (text : string)
| Stderr (text : string)
| WriteText (path text : string).

(** How the run ends: [main] returns, [sys.exit] is called, an exception
    of the renderer escapes, or a [write_text] fails. *)
Inductive ending : Type :=
| Returned
| Exited (status : Z)
| Uncaught (e : exn)
| WriteFailed (path : string).

Record run : Type := { events : list event; finish : ending }.

(** [print(text)] and [print(text, file=sys.stderr)] *)
Definition print (text : string) : event := Stdout (text ++ nl).
Definition print_err (text : string) : event := Stderr (text ++ nl).

Section Cli.
Variable SCHEMA_JSON : string.
Variable message : ValidationError -> string.
Variable py_repr : json -> string.

Definition main (env : environment) (args : arguments) : run :=
  match dump_schema args with
  | Some path =>
      if writable env path
      then {| events := [ WriteText path (strip SCHEMA_JSON ++ nl);
                          print ("Wrote schema to " ++ path) ];
              finish := Returned |}
      else {| events := []; finish := WriteFailed path |}
  | None =>
      if negb (jsonschema_importable env)
      then {| events :=
                [print_err
                   "ERROR: jsonschema is required. Install with: pip install jsonschema"];
              finish := Exited 1 |}
      else
        match inp args with
        | None =>
            {| events :=
                 [print_err
                    "ERROR: --in payload.json is required (or use --dump-schema)."];
               finish := Exited 2 |}
        | Some path =>
            match load env path with
            | inl e =>
                {| events := [print_err ("ERROR: Failed to read JSON payload: " ++ e)];
                   finish := Exited 1 |}
            | inr payload =>
                match validate_payload message payload with
                | Raise e =>
                    {| events := [print_err (Main.exn_str e)]; finish := Exited 1 |}
                | Ok _ =>
                    match render_report py_repr payload with
                    | Raise e => {| events := []; finish := Uncaught e |}
                    | Ok md =>
                        match out args with
                        | Some target =>
                            if writable env target
                            then {| events := [ WriteText target md;
                                                print ("Wrote report to " ++ target) ];
                                    finish := Returned |}
                            else {| events := []; finish := WriteFailed target |}
                        | None => {| events := [Stdout md]; finish := Returned |}
                        end
                    end
                end
            end
        end
  end.
End Cli.

End Cli.

(* ================================================================== *)
(** ** Predicates on values and texts *)

Module Shapes.
Import Py Json Regions Schema Validator.

Definition is_str (v : json) : bool :=
  match v with JString _ => true | _ => false end.

(** An item the region formatter takes: a string, or a value that counts
    as false and is replaced by the empty label. *)
Definition label_like (v : json) : bool := is_str v || negb (truthy v).

(** The label the formatter normalizes for an item. *)
Definition label_of (v : json) : string :=
  match v with JString s => s | _ => "" end.


(** The error sits at the path [p]. *)
Definition at_path (p : list segment) (e : ValidationError) : bool :=
  match path_compare p (path e) with Eq => true | _ => false end.

(** The text the region formatter appends for an item it takes: the
    flag of the normalized label, a space, and [str] of the item. *)
Definition cell_text (py_repr : json -> string) (v : json) : string :=
  strip (flag_of_key (normalize_key (label_of v)) ++ " " ++ py_str py_repr v).

(** A property name that is neither empty nor the text that stands for
    the empty path. *)
Definition plain_name (name : string) : bool :=
  negb (name =? "") && negb (name =? "<root>").

(** Every property the keyword declares, at any depth, has a plain name. *)
Fixpoint plain_names (k : keyword) : bool :=
  match k with
  | Properties props =>
      forallb (fun p => plain_name (fst p) && forallb plain_names (snd p)) props
  | Items s | Ref _ s | Contains s => forallb plain_names s
  | AllOf ss => forallb (forallb plain_names) ss
  | _ => true
  end.

(** A segment of a path whose key, if it is one, is a plain name. *)
Definition plain_segment (seg : segment) : Prop :=
  match seg with
  | Key name => plain_name name = true
  | Index _ => True
  end.

(** The text holds a slash. *)
Fixpoint has_slash (s : string) : bool :=
  match s with
  | String c s' => Ascii.eqb c "/" || has_slash s'
  | EmptyString => false
  end.

End Shapes.

(* ================================================================== *)
(** ** Environments of a run *)

Module Environments.
Import Py Json.

(** The package is installed, every input file holds [payload] and every
    path can be written. *)
Definition with_payload (payload : json) : Cli.environment :=
  {| Cli.jsonschema_importable := true;
     Cli.load := fun _ => inr payload;
     Cli.writable := fun _ => true |}.


End Environments.

(* ================================================================== *)
(** * Properties *)

(** ** Lists, loops and strings *)

Module PyFacts.
Import Py Json.

Lemma fold_left_snoc {A B : Type} (f : A -> B) (xs : list A) (acc : list B) :
  fold_left (fun acc x => (acc ++ [f x])%list) xs acc = (acc ++ map f xs)%list.
Proof.
  revert acc; induction xs as [|x xs IH]; intros acc; simpl.
  - now rewrite app_nil_r.
  - rewrite IH, <- app_assoc. reflexivity.
Qed.

(** A loop that appends one computed item per iteration builds the
    image of the list, provided no iteration raises. *)
Lemma for_each_snoc {A B : Type} (g : A -> result B) (f : A -> B) (xs : list A) :
  Forall (fun x => g x = Ok (f x)) xs ->
  forall acc,
    for_each (fun acc x => r <- g x ;; Ok (acc ++ [r])%list) xs acc
    = Ok (acc ++ map f xs)%list.
Proof.
  induction 1 as [|x xs Hx _ IH]; intros acc; simpl.
  - now rewrite app_nil_r.
  - rewrite Hx. simpl. rewrite IH, <- app_assoc. reflexivity.
Qed.

Lemma all_str_strings (cells : list string) : all_str (map JString cells) = Ok cells.
Proof.
  induction cells as [|c cells IH]; simpl; [reflexivity|].
  now rewrite IH.
Qed.

Lemma py_str_string py_repr (cells : list string) :
  map (py_str py_repr) (map JString cells) = cells.
Proof.
  induction cells as [|c cells IH]; simpl; [reflexivity|].
  now rewrite IH.
Qed.

Ltac each_ascii c :=
  destruct c as [[] [] [] [] [] [] [] []]; try reflexivity; try discriminate.

Lemma upper_char_idempotent (c : ascii) : upper_char (upper_char c) = upper_char c.
Proof. each_ascii c. Qed.

Lemma upper_char_period (c : ascii) :
  Ascii.eqb (upper_char c) "." = Ascii.eqb c ".".
Proof. each_ascii c. Qed.

Lemma upper_idempotent (s : string) : upper (upper s) = upper s.
Proof.
  induction s as [|c s IH]; simpl; [reflexivity|].
  now rewrite upper_char_idempotent, IH.
Qed.

Lemma upper_remove_period (s : string) :
  upper (remove_char "." s) = remove_char "." (upper s).
Proof.
  induction s as [|c s IH]; simpl; [reflexivity|].
  rewrite upper_char_period.
  destruct (Ascii.eqb c "."); simpl; now rewrite IH.
Qed.

Lemma remove_char_idempotent (c : ascii) (s : string) :
  remove_char c (remove_char c s) = remove_char c s.
Proof.
  induction s as [|d s IH]; simpl; [reflexivity|].
  destruct (Ascii.eqb d c) eqn:E; simpl; [assumption|].
  now rewrite E, IH.
Qed.

Lemma append_nil_r (a : string) : a ++ "" = a.
Proof. induction a as [|x a IH]; simpl; [reflexivity|]. now rewrite IH. Qed.

Lemma append_assoc (a b c : string) : (a ++ b) ++ c = a ++ (b ++ c).
Proof. induction a as [|x a IH]; simpl; [reflexivity|]. now rewrite IH. Qed.

Lemma join_cons (sep x : string) (l : list string) :
  l <> [] -> join sep (x :: l) = x ++ sep ++ join sep l.
Proof. destruct l; [congruence|reflexivity]. Qed.

(** A joined group inside a joined list is the same as its members in
    the list. *)
Lemma join_group (sep : string) (l2 l3 : list string) :
  l2 <> [] -> join sep (join sep l2 :: l3) = join sep (l2 ++ l3).
Proof.
  induction l2 as [|y l2 IH]; [congruence|]. intros _.
  destruct l2 as [|z l2]; [reflexivity|].
  specialize (IH ltac:(discriminate)).
  change (join sep (y :: z :: l2)) with (y ++ sep ++ join sep (z :: l2)).
  change (join sep ((y :: z :: l2) ++ l3))
    with (y ++ sep ++ join sep ((z :: l2) ++ l3)).
  rewrite <- IH.
  destruct l3 as [|w l3]; [reflexivity|].
  rewrite !(join_cons sep _ (w :: l3)) by discriminate.
  now rewrite !append_assoc.
Qed.

Lemma join_nested (sep : string) (l1 l2 l3 : list string) :
  l2 <> [] ->
  join sep (l1 ++ join sep l2 :: l3) = join sep (l1 ++ l2 ++ l3).
Proof.
  intros Hl2. induction l1 as [|x l1 IH].
  - exact (join_group sep l2 l3 Hl2).
  - cbn [app]. rewrite !join_cons; [now rewrite IH| |].
    + destruct l1, l2; try discriminate; congruence.
    + destruct l1; discriminate.
Qed.

End PyFacts.

(** ** The region formatter *)

Module RegionProps.
Import Py Json Regions PyFacts.

Lemma flag_of_key_symbol (key : string) :
  flag_of_key key = RegionSpec.symbol key.
Proof. reflexivity. Qed.

Lemma normalize_key_resolve (label : string) :
  normalize_key label = RegionSpec.resolve (RegionSpec.normalize label).
Proof.
  unfold normalize_key, RegionSpec.resolve, RegionSpec.normalize, get_default.
  reflexivity.
Qed.

(** The loop body on a label that is a string. *)
Lemma region_cell_string py_repr (label : string) :
  region_cell py_repr (JString label) = Ok (RegionSpec.cell label).
Proof.
  unfold region_cell, RegionSpec.cell, RegionSpec.display_symbol.
  rewrite <- flag_of_key_symbol, <- normalize_key_resolve.
  destruct label as [|c label]; reflexivity.
Qed.

Lemma format_regions_strings py_repr (labels : list string) :
  _format_regions_with_flags py_repr (JArray (map JString labels))
  = Ok (RegionSpec.cells labels).
Proof.
  unfold _format_regions_with_flags, RegionSpec.cells.
  assert (Hit : iterate (if truthy (JArray (map JString labels))
                         then JArray (map JString labels) else JArray [])
                = Ok (map JString labels))
    by (destruct labels; reflexivity).
  rewrite Hit; simpl.
  rewrite (for_each_snoc (region_cell py_repr)
             (fun v => match v with JString l => RegionSpec.cell l | _ => "" end)).
  - simpl. rewrite map_map. reflexivity.
  - apply Forall_forall. intros v Hv. apply in_map_iff in Hv.
    destruct Hv as [l [<- _]]. apply region_cell_string.
Qed.


(** *** Idempotence of the key normalization *)

Lemma alias_values_canonical (key v : string) :
  get REGION_ALIASES key = Some v -> normalize_key v = v.
Proof.
  unfold REGION_ALIASES; simpl.
  repeat match goal with
         | |- context [String.eqb key ?k] => destruct (String.eqb key k)
         end;
    intros H; inversion H; reflexivity.
Qed.

Lemma normalize_key_twice (r : string) :
  strip (normalize_key r) = normalize_key r ->
  normalize_key (normalize_key r) = normalize_key r.
Proof.
  pose (k0 := remove_char "." (upper (strip r))).
  assert (Hn : normalize_key r
               = match get REGION_ALIASES k0 with Some v => v | None => k0 end)
    by reflexivity.
  rewrite Hn.
  destruct (get REGION_ALIASES k0) as [v|] eqn:Halias.
  - intros _. now apply alias_values_canonical with (key := k0).
  - intros Hstrip. unfold normalize_key, get_default.
    rewrite Hstrip.
    assert (Hk : remove_char "." (upper k0) = k0).
    { unfold k0. rewrite <- upper_remove_period, remove_char_idempotent.
      rewrite upper_remove_period, upper_idempotent. reflexivity. }
    rewrite Hk, Halias. reflexivity.
Qed.

(** C8, as amended: normalizing twice equals normalizing once for every
    label whose normalized key has no whitespace left at either end, and
    every canonical key of the flag table normalizes to itself. *)
Theorem normalize_key_idempotent_on_trimmed_keys :
  forall r : string,
    strip (normalize_key r) = normalize_key r ->
    normalize_key (normalize_key r) = normalize_key r
    /\ Forall (fun key => normalize_key key = key) (map fst REGION_FLAGS).
Proof.
  intros r Hr. split; [now apply normalize_key_twice|].
  repeat constructor.
Qed.

Lemma normalize_key_idempotent_witness :
  strip (normalize_key " u.s. ") = normalize_key " u.s. "
  /\ normalize_key (normalize_key " u.s. ") = normalize_key " u.s. ".
Proof.
  split; [reflexivity|].
  apply (normalize_key_idempotent_on_trimmed_keys " u.s. "). reflexivity.
Defined.

(** C8 as stated fails: stripping the period of ". US" after the
    trimming uncovers a space, which a second normalization trims, and
    the key then resolves through the alias table. *)
Lemma normalize_key_not_idempotent :
  normalize_key ". US" = " US"
  /\ normalize_key (normalize_key ". US") = "USA"
  /\ normalize_key (normalize_key ". US") <> normalize_key ". US".
Proof. repeat split; try reflexivity. discriminate. Qed.

(** C10: "AU" is a member of the region enumeration, yet it has no entry
    in the flag table and none in the alias table, so it is rendered with
    the fallback globe and its own text, the symbol that "Other" and an
    unknown label such as "MARS" get. *)
Theorem AU_is_rendered_with_the_fallback_symbol :
  forall (py_repr : json -> string),
    Validator.iter_errors Schema.regionEnum (JString "AU") = []
    /\ get REGION_FLAGS "AU" = None
    /\ get REGION_ALIASES "AU" = None
    /\ _format_regions_with_flags py_repr (JArray [JString "AU"]) = Ok "🌐 AU"
    /\ _format_regions_with_flags py_repr (JArray [JString "Other"]) = Ok "🌐 Other"
    /\ _format_regions_with_flags py_repr (JArray [JString "MARS"]) = Ok "🌐 MARS"
    /\ flag_of_key (normalize_key "AU") = flag_of_key (normalize_key "Other")
    /\ flag_of_key (normalize_key "AU") = flag_of_key (normalize_key "MARS")
    /\ Validator.iter_errors Schema.regionEnum (JString "MARS") <> [].
Proof.
  intros py_repr. repeat split; try reflexivity. discriminate.
Qed.

End RegionProps.

(** ** The table renderer *)

Module TableProps.
Import Py Json Table Render PyFacts.

(** The lines of a table whose header row holds text. *)
Lemma print_table_lines (py_repr : json -> string) (title : string)
      (header : list string) (data : list (list json)) :
  _print_table py_repr title (literals header :: data)
  = Ok (join nl (title :: "" :: row_line header :: separator_line (List.length header)
                 :: map (fun r => row_line (map (py_str py_repr) r)) data)).
Proof.
  unfold _print_table, literals.
  rewrite all_str_strings. cbn [bind app].
  rewrite (fold_left_snoc (fun r => row_line (map (py_str py_repr) r))).
  now rewrite length_map.
Qed.

(** C7: for a title, a header row and data rows, the table is the title,
    an empty line, the header cells between bars, a separator with one
    "---" per header column, then one line per data row, in the order
    given, each cell turned into text by [str] and the cells joined by
    " | "; the lines are joined by newlines. *)
Theorem print_table_layout :
  forall (py_repr : json -> string) (title : string) (header : list string)
         (data : list (list json)),
    _print_table py_repr title (literals header :: data)
    = Ok (join nl
            (title
             :: ""
             :: ("| " ++ join " | " header ++ " |")
             :: ("|" ++ join "|" (repeat "---" (List.length header)) ++ "|")
             :: map (fun r => "| " ++ join " | " (map (py_str py_repr) r) ++ " |")
                    data)).
Proof.
  intros py_repr title header data.
  unfold _print_table, literals.
  rewrite all_str_strings. simpl.
  rewrite (fold_left_snoc (fun r => row_line (map (py_str py_repr) r))).
  rewrite length_map. reflexivity.
Qed.

(** Data rows whose cells are text already come out as they are, one
    line each and in the same order. *)
Corollary print_table_text_rows :
  forall (py_repr : json -> string) (title : string) (header : list string)
         (data : list (list string)),
    _print_table py_repr title (literals header :: map literals data)
    = Ok (join nl (title :: "" :: row_line header
                   :: separator_line (List.length header) :: map row_line data)).
Proof.
  intros. rewrite print_table_lines. rewrite map_map.
  do 6 f_equal. apply map_ext. intros r.
  unfold row_line, literals. now rewrite py_str_string.
Qed.

End TableProps.

(** ** The validator *)

Module ValidatorFacts.
Import Py Json Schema SchemaView Validator Conformance.

(** The references of the schema are resolved as its [$defs] say. *)
Lemma schema_references_resolved :
  references_resolved (AllOf [SCHEMA]) /\ references_resolved (AllOf (map snd defs)).
Proof. cbn. repeat split. Qed.

(** *** Lists of errors *)

Lemma is_nil_true {A : Type} (l : list A) : is_nil l = true <-> l = [].
Proof. destruct l; simpl; split; intros H; congruence. Qed.

Lemma is_nil_app {A : Type} (l1 l2 : list A) :
  is_nil (l1 ++ l2) = is_nil l1 && is_nil l2.
Proof. destruct l1; reflexivity. Qed.

Lemma is_nil_flat_map {A B : Type} (f : A -> list B) (l : list A) :
  is_nil (flat_map f l) = forallb (fun x => is_nil (f x)) l.
Proof.
  induction l as [|x l IH]; simpl; [reflexivity|].
  now rewrite is_nil_app, IH.
Qed.

Lemma is_nil_map {A B : Type} (f : A -> B) (l : list A) : is_nil (map f l) = is_nil l.
Proof. destruct l; reflexivity. Qed.

Lemma is_nil_descend (seg : segment) (errors : list ValidationError) :
  is_nil (descend seg errors) = is_nil errors.
Proof. apply is_nil_map. Qed.

Lemma is_nil_filter {A : Type} (f : A -> bool) (l : list A) :
  is_nil (filter f l) = forallb (fun x => negb (f x)) l.
Proof.
  induction l as [|x l IH]; simpl; [reflexivity|].
  destruct (f x); simpl; [reflexivity|assumption].
Qed.

Lemma forallb_ext_in {A : Type} (f g : A -> bool) (l : list A) :
  (forall x, In x l -> f x = g x) -> forallb f l = forallb g l.
Proof.
  induction l as [|x l IH]; simpl; intros H; [reflexivity|].
  rewrite (H x), IH; auto.
Qed.

Lemma existsb_ext_in {A : Type} (f g : A -> bool) (l : list A) :
  (forall x, In x l -> f x = g x) -> existsb f l = existsb g l.
Proof.
  induction l as [|x l IH]; simpl; intros H; [reflexivity|].
  rewrite (H x), IH; auto.
Qed.

Lemma forallb_enumerate {A : Type} (f : A -> bool) (l : list A) (start : nat) :
  forallb (fun ix => f (snd ix)) (enumerate start l) = forallb f l.
Proof.
  revert start; induction l as [|x l IH]; intros start; simpl; [reflexivity|].
  now rewrite IH.
Qed.

Lemma extras_nil (declared : list string) (fields : dict json) :
  is_nil (filter (fun name => negb (mem name declared)) (map fst fields))
  = forallb (fun kv => mem (fst kv) declared) fields.
Proof.
  induction fields as [|[name v] fields IH]; simpl; [reflexivity|].
  destruct (mem name declared); simpl; [assumption|reflexivity].
Qed.

(** *** The error list is empty exactly on conforming instances *)

Lemma agrees_schema (s : schema) :
  Forall agrees s -> forall inst, is_valid s inst = conforms s inst.
Proof.
  intros Hs inst. unfold is_valid, iter_errors, conforms.
  rewrite is_nil_flat_map. apply forallb_ext_in.
  intros k Hk. rewrite Forall_forall in Hs. now apply Hs.
Qed.

Lemma keyword_agrees (k : keyword) : agrees k.
Proof.
  induction k as [k IH] using keyword_nested_ind.
  intros declared inst.
  destruct k; simpl in IH |- *.
  - reflexivity.
  - now destruct (is_type inst t).
  - destruct inst; try reflexivity.
    destruct allowed; simpl; [reflexivity|].
    rewrite <- extras_nil.
    now destruct (is_nil (filter _ (map fst fields))).
  - destruct inst; try reflexivity.
    rewrite is_nil_flat_map. apply forallb_ext_in.
    intros name _. now destruct (contains fields name).
  - destruct inst; try reflexivity.
    rewrite is_nil_flat_map. apply forallb_ext_in.
    intros [name sub] Hin.
    destruct (get fields name) as [v|]; [|reflexivity].
    rewrite is_nil_descend.
    apply (agrees_schema sub).
    rewrite Forall_forall in IH. apply IH.
    apply in_map_iff. now exists (name, sub).
  - destruct inst; try reflexivity. now destruct (search p s).
  - destruct inst; try reflexivity.
    rewrite Nat.leb_antisym. now destruct (len s <? n)%nat.
  - destruct inst; try reflexivity.
    rewrite Nat.leb_antisym. now destruct (List.length items <? n)%nat.
  - destruct inst; try reflexivity.
    destruct unique; simpl; [|reflexivity]. now destruct (uniq items).
  - destruct inst; try reflexivity.
    rewrite is_nil_flat_map.
    rewrite <- (forallb_enumerate
                  (fun item => forallb (fun k' => satisfies (declared_props s) k' item) s)
                  items 0).
    apply forallb_ext_in. intros [i item] _. simpl.
    rewrite is_nil_descend.
    apply (agrees_schema s). now inversion IH.
  - apply (agrees_schema target). now inversion IH.
  - rewrite is_nil_flat_map. apply forallb_ext_in.
    intros sub Hin. apply (agrees_schema sub).
    rewrite Forall_forall in IH. now apply IH.
  - destruct inst; try reflexivity.
    rewrite (existsb_ext_in
               (fun item => forallb (fun k' => satisfies (declared_props s) k' item) s)
               (fun item => is_valid s item)).
    + unfold is_valid, iter_errors. now destruct (existsb _ items).
    + intros item _. symmetry. apply (agrees_schema s). now inversion IH.
  - destruct inst; try reflexivity. now destruct (s =? c).
  - destruct inst; try reflexivity. now destruct (mem s allowed).
  - destruct inst; try reflexivity. now destruct (lt_int n k).
  - destruct inst; try reflexivity. now destruct (gt_int n k).
Qed.

(** [iter_errors] yields nothing exactly when the instance conforms. *)
Lemma is_valid_conforms (s : schema) (inst : json) :
  is_valid s inst = conforms s inst.
Proof.
  apply agrees_schema. apply Forall_forall. intros k _. apply keyword_agrees.
Qed.

Lemma iter_errors_nil_iff (s : schema) (inst : json) :
  iter_errors s inst = [] <-> conforms s inst = true.
Proof. rewrite <- is_valid_conforms. unfold is_valid. symmetry. apply is_nil_true. Qed.

End ValidatorFacts.

(** ** The order of paths and the sort *)

Module SortFacts.
Import Py Json Schema Validator Conformance.

Lemma ascii_compare_lt_trans (a b c : ascii) :
  Ascii.compare a b = Lt -> Ascii.compare b c = Lt -> Ascii.compare a c = Lt.
Proof.
  unfold Ascii.compare. rewrite !N.compare_lt_iff. apply N.lt_trans.
Qed.

Lemma string_compare_lt_trans (s t u : string) :
  String.compare s t = Lt -> String.compare t u = Lt -> String.compare s u = Lt.
Proof.
  revert t u; induction s as [|a s IH]; intros [|b t] [|c u]; simpl;
    try discriminate; try reflexivity.
  destruct (Ascii.compare a b) eqn:Eab; try discriminate.
  - apply Ascii.compare_eq_iff in Eab; subst b.
    destruct (Ascii.compare a c) eqn:Eac; try discriminate; try reflexivity.
    apply IH.
  - intros _.
    destruct (Ascii.compare b c) eqn:Ebc; try discriminate.
    + apply Ascii.compare_eq_iff in Ebc; subst c. now rewrite Eab.
    + intros _. now rewrite (ascii_compare_lt_trans a b c).
Qed.

Lemma segment_compare_antisym (a b : segment) :
  segment_compare b a = CompOpp (segment_compare a b).
Proof.
  destruct a, b; simpl; try reflexivity.
  - apply String.compare_antisym.
  - apply Nat.compare_antisym.
Qed.

Lemma segment_compare_eq (a b : segment) : segment_compare a b = Eq -> a = b.
Proof.
  destruct a, b; simpl; try discriminate; intros H.
  - f_equal. now apply String.compare_eq_iff.
  - f_equal. now apply Nat.compare_eq_iff.
Qed.

Lemma segment_compare_lt_trans (a b c : segment) :
  segment_compare a b = Lt -> segment_compare b c = Lt -> segment_compare a c = Lt.
Proof.
  destruct a, b, c; simpl; try discriminate; try reflexivity.
  - apply string_compare_lt_trans.
  - rewrite !Nat.compare_lt_iff. apply Nat.lt_trans.
Qed.

Lemma path_compare_antisym (p q : list segment) :
  path_compare q p = CompOpp (path_compare p q).
Proof.
  revert q; induction p as [|a p IH]; intros [|b q]; simpl; try reflexivity.
  rewrite (segment_compare_antisym a b).
  destruct (segment_compare a b); simpl; [apply IH|reflexivity|reflexivity].
Qed.

Lemma path_compare_lt_trans (p q r : list segment) :
  path_compare p q = Lt -> path_compare q r = Lt -> path_compare p r = Lt.
Proof.
  revert q r; induction p as [|a p IH]; intros [|b q] [|c r]; simpl;
    try discriminate; try reflexivity.
  destruct (segment_compare a b) eqn:Eab; try discriminate.
  - apply segment_compare_eq in Eab; subst b.
    destruct (segment_compare a c); try discriminate; try reflexivity.
    apply IH.
  - intros _.
    destruct (segment_compare b c) eqn:Ebc; try discriminate.
    + apply segment_compare_eq in Ebc; subst c. now rewrite Eab.
    + intros _. now rewrite (segment_compare_lt_trans a b c).
Qed.

Lemma path_compare_eq_lt (p q r : list segment) :
  path_compare p q = Eq -> path_compare q r = Lt -> path_compare p r = Lt.
Proof.
  revert q r; induction p as [|a p IH]; intros [|b q] [|c r]; simpl;
    try discriminate; try reflexivity.
  destruct (segment_compare a b) eqn:Eab; try discriminate.
  apply segment_compare_eq in Eab; subst b.
  destruct (segment_compare a c); try discriminate; try reflexivity.
  apply IH.
Qed.

Lemma path_compare_lt_eq (p q r : list segment) :
  path_compare p q = Lt -> path_compare q r = Eq -> path_compare p r = Lt.
Proof.
  revert q r; induction p as [|a p IH]; intros [|b q] [|c r]; simpl;
    try discriminate; try reflexivity.
  destruct (segment_compare b c) eqn:Ebc; try discriminate.
  apply segment_compare_eq in Ebc; subst c.
  destruct (segment_compare a b); try discriminate; try reflexivity.
  apply IH.
Qed.

Lemma path_le_trans (x y z : ValidationError) :
  path_le x y -> path_le y z -> path_le x z.
Proof.
  unfold path_le. intros Hxy Hyz Hxz.
  rewrite path_compare_antisym in Hxz.
  destruct (path_compare (path z) (path x)) eqn:Ezx; try discriminate.
  destruct (path_compare (path x) (path y)) eqn:Exy; try congruence.
  - apply Hyz. rewrite path_compare_antisym.
    now rewrite (path_compare_lt_eq _ _ _ Ezx Exy).
  - apply Hyz. rewrite path_compare_antisym.
    now rewrite (path_compare_lt_trans _ _ _ Ezx Exy).
Qed.

Lemma path_lt_le (x y : ValidationError) : path_lt x y = true -> path_le x y.
Proof.
  unfold path_lt, path_le. destruct (path_compare (path x) (path y)); congruence.
Qed.

Lemma not_path_lt_le (x y : ValidationError) : path_lt y x = false -> path_le x y.
Proof.
  unfold path_lt, path_le. rewrite (path_compare_antisym (path y) (path x)).
  destruct (path_compare (path y) (path x)); simpl; congruence.
Qed.

Lemma insert_permutation (e : ValidationError) (l : list ValidationError) :
  Permutation (insert e l) (e :: l).
Proof.
  induction l as [|y l IH]; simpl; [reflexivity|].
  destruct (path_lt y e); [|reflexivity].
  rewrite IH. apply perm_swap.
Qed.

(** The sort neither drops nor adds an error. *)
Lemma sorted_by_path_permutation (l : list ValidationError) :
  Permutation (sorted_by_path l) l.
Proof.
  induction l as [|e l IH]; simpl; [reflexivity|].
  rewrite insert_permutation. now constructor.
Qed.

Lemma insert_sorted (e : ValidationError) (l : list ValidationError) :
  StronglySorted path_le l -> StronglySorted path_le (insert e l).
Proof.
  induction 1 as [|y l Hl IH Hy]; simpl.
  - repeat constructor.
  - destruct (path_lt y e) eqn:Hlt.
    + constructor; [assumption|].
      rewrite insert_permutation.
      constructor; [now apply path_lt_le|assumption].
    + constructor; [now constructor|].
      constructor; [now apply not_path_lt_le|].
      apply Forall_impl with (P := path_le y); [|assumption].
      intros z Hz. apply path_le_trans with y; [|assumption].
      now apply not_path_lt_le.
Qed.

(** The sorted list is in the order of paths. *)
Lemma sorted_by_path_sorted (l : list ValidationError) :
  StronglySorted path_le (sorted_by_path l).
Proof.
  induction l as [|e l IH]; simpl; [constructor|]. now apply insert_sorted.
Qed.

Lemma sorted_by_path_nil (l : list ValidationError) :
  sorted_by_path l = [] <-> l = [].
Proof.
  split; intros H.
  - apply Permutation_nil. rewrite <- H. apply sorted_by_path_permutation.
  - now subst.
Qed.

End SortFacts.

(** ** What the error list contains *)

Module ReportFacts.
Import Py Json Schema SchemaView Validator Conformance ValidatorFacts.

Lemma in_enumerate {A : Type} (l : list A) (start i : nat) (x : A) :
  In (i, x) (enumerate start l) <-> start <= i /\ nth_error l (i - start) = Some x.
Proof.
  revert start; induction l as [|y l IH]; intros start; simpl.
  - split; [intros []|]. intros [_ H]. now destruct (i - start).
  - rewrite IH. split.
    + intros [H|[Hle H]].
      * inversion H; subst. rewrite Nat.sub_diag. split; [lia|reflexivity].
      * split; [lia|]. replace (i - start) with (S (i - S start)) by lia. exact H.
    + intros [Hle H]. destruct (i - start) as [|n] eqn:E.
      * left. inversion H; subst. f_equal. lia.
      * right. split; [lia|]. replace (i - S start) with n by lia. exact H.
Qed.

Lemma in_descend (seg : segment) (errors : list ValidationError) (e : ValidationError) :
  In e (descend seg errors) <->
  exists e', In e' errors /\ path e = seg :: path e'
             /\ validator e = validator e' /\ instance e = instance e'
             /\ cited e = cited e'.
Proof.
  unfold descend. rewrite in_map_iff. split.
  - intros [e' [<- Hin]]. exists e'. simpl. auto.
  - intros [e' [Hin [Hp [Hv [Hi Hc]]]]]. exists e'. split; [|assumption].
    destruct e; simpl in *. congruence.
Qed.

Lemma in_iter_errors (s : schema) (inst : json) (e : ValidationError) :
  In e (iter_errors s inst) <->
  exists k, In k s /\ In e (keyword_errors (declared_props s) k inst).
Proof. unfold iter_errors. apply in_flat_map. Qed.

Lemma error_eta (e : ValidationError) :
  e = {| path := path e; validator := validator e; instance := instance e;
         cited := cited e |}.
Proof. now destruct e. Qed.

(** A keyword that names no property and is no applicator yields one
    error, at the instance itself, exactly when it is not satisfied. *)
Lemma plain_keyword_errors (declared : list string) (k : keyword) (inst : json) :
  applicator k = false -> names_cited k = false ->
  keyword_errors declared k inst
  = if satisfies declared k inst then [] else [fail k inst []].
Proof.
  intros Happ Hnames.
  pose proof (keyword_agrees k declared inst) as Hagree.
  destruct k; try discriminate; simpl in Hagree |- *;
    repeat match goal with
           | |- context [match ?x with _ => _ end] => destruct x; simpl in *
           end;
    try reflexivity; try discriminate.
Qed.

(** The errors of a keyword that is no applicator sit at the instance
    itself and are its failures. *)
Lemma local_errors (declared : list string) (k : keyword) (inst : json)
      (names : list string) :
  applicator k = false ->
  In (fail k inst names) (keyword_errors declared k inst) <-> fails declared k inst names.
Proof.
  intros Happ. destruct (names_cited k) eqn:Hnames.
  - destruct k; try discriminate.
    + (* additionalProperties *)
      simpl. split.
      * intros Hin. destruct inst; try contradiction.
        destruct allowed; [contradiction|]. cbn [orb] in Hin.
        destruct (filter _ (map fst fields)) as [|x extras] eqn:E; [contradiction|].
        cbn [is_nil] in Hin. destruct Hin as [Heq|[]].
        inversion Heq; subst. apply fails_additional; [now rewrite E|discriminate].
      * intros Hf. inversion Hf; subst; try discriminate.
        cbn [orb].
        destruct (filter _ (map fst o)); [congruence|]. now left.
    + (* required *)
      simpl. split.
      * intros Hin. destruct inst; try contradiction.
        apply in_flat_map in Hin. destruct Hin as [name [Hname Hin]].
        destruct (contains fields name) eqn:Hc; [contradiction|].
        destruct Hin as [Heq|[]]. inversion Heq; subst. now apply fails_required.
      * intros Hf. inversion Hf; subst; try discriminate.
        apply in_flat_map. eexists. split; [eassumption|].
        match goal with H : contains _ _ = false |- _ => rewrite H end. now left.
  - rewrite (plain_keyword_errors declared k inst Happ Hnames). split.
    + intros Hin. destruct (satisfies declared k inst) eqn:Hs; [contradiction|].
      destruct Hin as [Heq|[]]. inversion Heq; subst. now apply fails_other.
    + intros Hf. inversion Hf; subst; try discriminate.
      match goal with H : satisfies _ _ _ = false |- _ => rewrite H end. now left.
Qed.

(** A keyword that is no applicator reports at the instance itself. *)
Lemma local_error_shape (declared : list string) (k : keyword) (inst : json)
      (e : ValidationError) :
  applicator k = false ->
  In e (keyword_errors declared k inst) ->
  e = fail k inst (cited e).
Proof.
  intros Hk Hin.
  assert (Hfail : forall names, In e [fail k inst names] -> e = fail k inst (cited e)).
  { intros names [<-|[]]. reflexivity. }
  destruct k; simpl in Hk, Hin; try discriminate; try contradiction;
    repeat match type of Hin with
           | In _ (match ?x with _ => _ end) => destruct x
           | In _ (if ?b then _ else _) => destruct b
           | In _ [] => contradiction
           | In _ [fail _ _ _] => now apply Hfail in Hin
           end.
  apply in_flat_map in Hin. destruct Hin as [name [_ Hin]].
  destruct (contains fields name); [contradiction|]. now apply Hfail in Hin.
Qed.

(** *** Every error is a violation *)

Lemma sound_schema (sub : schema) (inst : json) (e : ValidationError) :
  Forall sound sub ->
  In e (iter_errors sub inst) ->
  Violation sub inst (path e) (validator e) (instance e) (cited e).
Proof.
  intros Hsub Hin. apply in_iter_errors in Hin. destruct Hin as [k [Hk Hin]].
  rewrite Forall_forall in Hsub. now apply (Hsub k Hk).
Qed.

Lemma keyword_sound (k0 : keyword) : sound k0.
Proof.
  induction k0 as [k0 IH] using keyword_nested_ind.
  intros s inst e Hk0 Hin.
  destruct (applicator k0) eqn:Happ.
  - destruct k0; try discriminate; simpl in IH, Hin.
    + (* properties *)
      destruct inst; try contradiction.
      apply in_flat_map in Hin. destruct Hin as [[name sub] [Hp Hin]].
      destruct (get fields name) as [x|] eqn:Hget; [|contradiction].
      apply in_descend in Hin. destruct Hin as [e' [Hin [-> [-> [-> ->]]]]].
      apply V_property with props sub x; try assumption.
      apply sound_schema; [|assumption].
      rewrite Forall_forall in IH. apply IH. apply in_map_iff. now exists (name, sub).
    + (* items *)
      destruct inst; try contradiction.
      apply in_flat_map in Hin. destruct Hin as [[i x] [Hix Hin]]. simpl in Hin.
      apply in_descend in Hin. destruct Hin as [e' [Hin [-> [-> [-> ->]]]]].
      apply in_enumerate in Hix. destruct Hix as [_ Hnth].
      rewrite Nat.sub_0_r in Hnth.
      apply V_item with s0 x; try assumption.
      apply sound_schema; [now inversion IH|assumption].
    + (* $ref *)
      apply V_ref with pointer target; [assumption|].
      apply sound_schema; [now inversion IH|assumption].
    + (* allOf *)
      apply in_flat_map in Hin. destruct Hin as [sub [Hsub Hin]].
      apply V_allOf with ss sub; try assumption.
      apply sound_schema; [|assumption].
      rewrite Forall_forall in IH. now apply IH.
  - pose proof (local_error_shape _ _ _ _ Happ Hin) as He.
    rewrite He in Hin. rewrite He. cbn [path validator instance cited fail].
    apply V_here; [assumption|].
    now apply (local_errors (declared_props s) k0 inst (cited e) Happ).
Qed.

Lemma reports_sound (s : schema) (doc : json) p k w names :
  reports (iter_errors s doc) p k w names -> Violation s doc p k w names.
Proof.
  unfold reports. intros Hin.
  apply (sound_schema s doc _ (proj2 (Forall_forall _ _) (fun k _ => keyword_sound k)))
    in Hin.
  exact Hin.
Qed.

(** *** Every violation is an error of the list *)



(** *** Paths *)

(** The path of a violation leads, in the document, to the value that
    fails. *)
Lemma violation_resolves (s : schema) (doc : json) p k w names :
  Violation s doc p k w names -> resolve doc p = Some w.
Proof.
  induction 1 as [| ? ? ? ? ? ? ? ? ? ? _ _ Hget _ IH | ? ? ? ? ? ? ? ? ? _ Hnth _ IH | |];
    simpl; try assumption.
  - reflexivity.
  - now rewrite Hget.
  - now rewrite Hnth.
Qed.

Lemma error_path_resolves (s : schema) (doc : json) (e : ValidationError) :
  In e (iter_errors s doc) -> resolve doc (path e) = Some (instance e).
Proof.
  intros Hin. apply violation_resolves with s (validator e) (cited e).
  apply reports_sound. unfold reports. now rewrite <- error_eta.
Qed.

Lemma resolved_paths_not_mixed (doc : json) (p q : list segment) :
  resolve doc p <> None -> resolve doc q <> None -> mixed p q = false.
Proof.
  revert doc q; induction p as [|a p IH]; intros doc [|b q]; try reflexivity;
    try (destruct a; reflexivity).
  destruct a as [a|i], b as [b|j]; simpl;
    destruct doc; try congruence.
  - destruct (String.eqb_spec a b) as [->|]; [|reflexivity]. simpl.
    destruct (get fields b); [apply IH|congruence].
  - destruct (Nat.eqb_spec i j) as [->|]; [|reflexivity]. simpl.
    destruct (nth_error items j); [apply IH|congruence].
Qed.

(** No comparison of the sort is between a key and an index: the sort
    key of [sorted] never raises. *)
Lemma paths_comparable (s : schema) (doc : json) (x y : ValidationError) :
  In x (iter_errors s doc) -> In y (iter_errors s doc) ->
  mixed (path x) (path y) = false.
Proof.
  intros Hx Hy. apply resolved_paths_not_mixed with doc.
  - now rewrite (error_path_resolves s doc x).
  - now rewrite (error_path_resolves s doc y).
Qed.

End ReportFacts.

(** ** [validate_payload] *)

Module ValidateProps.
Import Py Json Schema Validator Conformance.
Import PyFacts ValidatorFacts SortFacts ReportFacts.

(** The violations of a payload, in the order [validate_payload] lists
    them. *)
Lemma reported_nil_iff (payload : json) :
  sorted_by_path (iter_errors SCHEMA payload) = [] <-> valid_document payload = true.
Proof.
  rewrite sorted_by_path_nil. apply iter_errors_nil_iff.
Qed.

Lemma validate_payload_valid message (payload : json) :
  valid_document payload = true -> validate_payload message payload = Ok payload.
Proof.
  intros H. apply reported_nil_iff in H. unfold validate_payload. now rewrite H.
Qed.

Lemma validate_payload_invalid message (payload : json) :
  valid_document payload = false ->
  validate_payload message payload
  = Raise (ValueError
             ("Invalid SOP payload:" ++ nl ++
              join nl (map (error_line message)
                           (sorted_by_path (iter_errors SCHEMA payload))))).
Proof.
  intros H. unfold validate_payload.
  destruct (sorted_by_path (iter_errors SCHEMA payload)) as [|e errors] eqn:E.
  - apply reported_nil_iff in E. congruence.
  - cbn [is_nil negb]. rewrite fold_left_snoc. reflexivity.
Qed.

(** C1, as amended: for a payload that does not conform,
    [validate_payload] raises one [ValueError]; its message is the line
    "Invalid SOP payload:" followed by one "path: message" line for every
    violation, in the order of paths, and there is at least one such
    line.  It returns, and then returns the payload itself, exactly when
    the payload conforms.  [main] catches the exception, writes its text
    to the error stream and exits with status 1. *)
Theorem validate_payload_raises_on_violations :
  forall (message : ValidationError -> string) (py_repr : json -> string)
         (payload : json),
    (valid_document payload = true
     /\ validate_payload message payload = Ok payload)
    \/
    (valid_document payload = false
     /\ exists errors : list ValidationError,
         errors = sorted_by_path (iter_errors SCHEMA payload)
         /\ errors <> []
         /\ validate_payload message payload
            = Raise (ValueError ("Invalid SOP payload:" ++ nl ++
                                 join nl (map (error_line message) errors)))
         /\ Main.main message py_repr payload
            = Main.Exit 1 ("Invalid SOP payload:" ++ nl ++
                           join nl (map (error_line message) errors))).
Proof.
  intros message py_repr payload.
  destruct (valid_document payload) eqn:Hvalid.
  - left. split; [reflexivity|]. now apply validate_payload_valid.
  - right. split; [reflexivity|].
    exists (sorted_by_path (iter_errors SCHEMA payload)).
    split; [reflexivity|]. split.
    + intros E. apply reported_nil_iff in E. congruence.
    + pose proof (validate_payload_invalid message payload Hvalid) as Hraise.
      split; [assumption|]. unfold Main.main. now rewrite Hraise.
Qed.

(** C1 as stated fails: the empty object is parseable and does not
    conform, and [validate_payload] raises instead of returning. *)
Lemma validate_payload_does_not_return_violations :
  valid_document (JObject []) = false
  /\ (exists msg, validate_payload (fun _ => "") (JObject []) = Raise (ValueError msg))
  /\ ~ (forall message payload,
           valid_document payload = false ->
           exists returned, validate_payload message payload = Ok returned).
Proof.
  split; [reflexivity|]. split.
  - eexists. reflexivity.
  - intros H. destruct (H (fun _ => "") (JObject []) eq_refl) as [returned Hret].
    discriminate Hret.
Qed.


(** Three violations in three sections, none hiding another: a missing
    field in [step1], a list of one file in [step2], a version that is no
    version.  Three errors, in the order of their paths. *)
Example three_violations_three_errors :
  map (fun e => path_str (path e))
      (sorted_by_path
         (iter_errors SCHEMA
            (JObject
               [ ("version", JString "draft");
                 ("step2", JObject [("files", JArray [Samples.file "Artwork"])]);
                 ("step1",
                   JObject [("project_name", JString "X");
                            ("round_version", JString "1.0");
                            ("regions_in_scope", JArray [JString "USA"])]);
                 ("step3", Samples.step3);
                 ("step5", JObject [("constraints", JArray [])]) ])))
  = ["step1"; "step2/files"; "version"].
Proof. reflexivity. Qed.

End ValidateProps.

(** ** The rules on [step2.files] and on [version] *)

Module SchemaProps.
Import Py Json Schema Validator Conformance Samples.
Import PyFacts ValidatorFacts ValidateProps.

(** The two ["contains"] rules sit in the schema of the [step2] object,
    not in the schema of its [files] array; on an object they yield no
    error, whatever the object holds. *)
Lemma contains_rules_silent_on_objects (declared : list string) (o : dict json) :
  keyword_errors declared
    (AllOf [contains_type "Copy Document"; contains_type "Artwork"]) (JObject o) = [].
Proof. reflexivity. Qed.

(** C5, on the code: a [files] array of one item is rejected with a
    [minItems] error at [step2/files], and one item of each required type
    is accepted; but two items of one type, the other required type
    missing, are accepted as well, and [validate_payload] returns. *)
Theorem files_of_one_type_pass_validation :
  forall message : ValidationError -> string,
    iter_errors SCHEMA (document [file "Artwork"])
    = [ {| path := [Key "step2"; Key "files"]; validator := MinItems 2;
           instance := JArray [file "Artwork"]; cited := [] |} ]
    /\ iter_errors SCHEMA (document [file "Copy Document"; file "Artwork"]) = []
    /\ iter_errors SCHEMA
         (document [file "Copy Document"; file "Artwork"; file "Other"; file "Artwork"])
       = []
    /\ iter_errors SCHEMA (document [file "Artwork"; file "Artwork"]) = []
    /\ validate_payload message (document [file "Artwork"; file "Artwork"])
       = Ok (document [file "Artwork"; file "Artwork"])
    /\ (forall declared o,
           keyword_errors declared
             (AllOf [contains_type "Copy Document"; contains_type "Artwork"])
             (JObject o) = []).
Proof.
  intros message. repeat split; try reflexivity.
Qed.

(** *** The version *)



(** A run of digits in front of a text the rest of a branch matches. *)
Lemma digits_then (rest : branch) (a t : string) :
  a <> "" ->
  (forall c, List.In c (list_ascii_of_string a) -> in_charset Digit c = true) ->
  match_branch rest t = true ->
  match_branch ((Digit, OneOrMore) :: rest) (a ++ t) = true.
Proof.
  induction a as [|c a IH]; [congruence|]. intros _ Hdigits Hrest.
  cbn [match_branch append].
  rewrite (Hdigits c (or_introl eq_refl)). cbn [andb].
  destruct a as [|d a].
  - cbn [append]. now rewrite Hrest.
  - apply orb_true_iff. right.
    apply (IH ltac:(discriminate)); [|assumption].
    intros c' Hc'. apply Hdigits. now right.
Qed.

Lemma period_then (rest : branch) (t : string) :
  match_branch ((Lit ".", Once) :: rest) (String "." t) = match_branch rest t.
Proof. reflexivity. Qed.

(** Three runs of digits with periods between them match the pattern of
    [version]. *)
Lemma version_pattern_accepts_triples (a b c : string) :
  a <> "" -> b <> "" -> c <> "" ->
  (forall x, List.In x (list_ascii_of_string (a ++ b ++ c)) ->
             in_charset Digit x = true) ->
  search version_pattern (a ++ "." ++ b ++ "." ++ c) = true.
Proof.
  intros Ha Hb Hc Hdigits.
  assert (Hsplit : forall u v x, List.In x (list_ascii_of_string u)
                                 \/ List.In x (list_ascii_of_string v)
                                 -> List.In x (list_ascii_of_string (u ++ v))).
  { induction u as [|y u IHu]; intros v x [H|H]; cbn in *; try tauto.
    - destruct H as [H|H]; [now left|right; apply IHu; now left].
    - right. apply IHu. now right. }
  unfold search, version_pattern, branches, digits, dot. cbn [existsb].
  apply orb_true_iff. left.
  apply digits_then; [assumption| |].
  { intros x Hx. apply Hdigits. apply Hsplit. now left. }
  change ("." ++ b ++ "." ++ c) with (String "." (b ++ String "." c)).
  rewrite period_then.
  apply digits_then; [assumption| |].
  { intros x Hx. apply Hdigits. apply Hsplit. right. apply Hsplit. now left. }
  rewrite period_then.
  rewrite <- (append_nil_r c).
  apply digits_then; [assumption| |reflexivity].
  intros x Hx. apply Hdigits. apply Hsplit. right. apply Hsplit. now right.
Qed.




End SchemaProps.

(** ** The section renderers on conforming sections *)

Module RenderProps.
Import Py Json Schema SchemaView Validator Conformance Regions Table Render ReportSpec.
Import PyFacts TableProps.

Lemma conforms_keyword (s : schema) (v : json) (k : keyword) :
  conforms s v = true -> In k s -> satisfies (declared_props s) k v = true.
Proof.
  unfold conforms. rewrite forallb_forall. auto.
Qed.

Lemma object_inv (s : schema) (v : json) :
  conforms s v = true -> has_type s TObject = true -> exists o, v = JObject o.
Proof.
  intros Hc Ht. unfold has_type in Ht. apply existsb_exists in Ht.
  destruct Ht as [k [Hin Hk]].
  pose proof (conforms_keyword s v k Hc Hin) as Hs.
  destruct k; try discriminate. destruct t; try discriminate.
  destruct v; try discriminate. now eexists.
Qed.

Lemma array_inv (s : schema) (v : json) :
  conforms s v = true -> has_type s TArray = true -> exists l, v = JArray l.
Proof.
  intros Hc Ht. unfold has_type in Ht. apply existsb_exists in Ht.
  destruct Ht as [k [Hin Hk]].
  pose proof (conforms_keyword s v k Hc Hin) as Hs.
  destruct k; try discriminate. destruct t; try discriminate.
  destruct v; try discriminate. now eexists.
Qed.

Lemma string_inv (s : schema) (v : json) :
  conforms s v = true -> has_type s TString = true -> exists x, v = JString x.
Proof.
  intros Hc Ht. unfold has_type in Ht. apply existsb_exists in Ht.
  destruct Ht as [k [Hin Hk]].
  pose proof (conforms_keyword s v k Hc Hin) as Hs.
  destruct k; try discriminate. destruct t; try discriminate.
  destruct v; try discriminate. now eexists.
Qed.

Lemma required_inv (s : schema) (o : dict json) (name : string) :
  conforms s (JObject o) = true -> In name (required_names s) ->
  exists v, get o name = Some v.
Proof.
  intros Hc Hin. unfold required_names in Hin. apply in_flat_map in Hin.
  destruct Hin as [k [Hk Hin]]. destruct k; try contradiction.
  pose proof (conforms_keyword _ _ _ Hc Hk) as Hs. simpl in Hs.
  rewrite forallb_forall in Hs. specialize (Hs name Hin).
  unfold contains in Hs. destruct (get o name) as [v|]; [now exists v|discriminate].
Qed.

Lemma property_inv (s sub : schema) (o : dict json) (name : string) (v : json) :
  conforms s (JObject o) = true -> In (name, sub) (properties s) ->
  get o name = Some v -> conforms sub v = true.
Proof.
  intros Hc Hin Hget. unfold properties in Hin. apply in_flat_map in Hin.
  destruct Hin as [k [Hk Hin]]. destruct k; try contradiction.
  pose proof (conforms_keyword _ _ _ Hc Hk) as Hs. simpl in Hs.
  rewrite forallb_forall in Hs. specialize (Hs (name, sub) Hin). simpl in Hs.
  now rewrite Hget in Hs.
Qed.

Lemma items_inv (s sub : schema) (l : list json) :
  conforms s (JArray l) = true -> In sub (items_schemas s) ->
  Forall (fun x => conforms sub x = true) l.
Proof.
  intros Hc Hin. unfold items_schemas in Hin. apply in_flat_map in Hin.
  destruct Hin as [k [Hk Hin]]. destruct k; try contradiction.
  destruct Hin as [<-|[]].
  pose proof (conforms_keyword _ _ _ Hc Hk) as Hs. simpl in Hs.
  apply Forall_forall. rewrite forallb_forall in Hs. exact Hs.
Qed.

Lemma ref_inv (s target : schema) (v : json) :
  conforms s v = true -> In target (ref_targets s) -> conforms target v = true.
Proof.
  intros Hc Hin. unfold ref_targets in Hin. apply in_flat_map in Hin.
  destruct Hin as [k [Hk Hin]]. destruct k; try contradiction.
  destruct Hin as [<-|[]].
  exact (conforms_keyword _ _ _ Hc Hk).
Qed.

Lemma enum_inv (s : schema) (allowed : list string) (v : json) :
  conforms s v = true -> In allowed (enum_values s) ->
  exists x, v = JString x /\ mem x allowed = true.
Proof.
  intros Hc Hin. unfold enum_values in Hin. apply in_flat_map in Hin.
  destruct Hin as [k [Hk Hin]]. destruct k; try contradiction.
  destruct Hin as [<-|[]].
  pose proof (conforms_keyword _ _ _ Hc Hk) as Hs. simpl in Hs.
  destruct v; try discriminate. now exists s0.
Qed.

Lemma getitem_get (o : dict json) (name : string) (v : json) :
  get o name = Some v -> getitem (JObject o) name = Ok v.
Proof. intros H. simpl. now rewrite H. Qed.

Lemma field_get (o : dict json) (name : string) (v : json) :
  get o name = Some v -> field (JObject o) name = v.
Proof. intros H. unfold field, get_default. now rewrite H. Qed.

(** A conforming status code has its symbol in the table. *)
Lemma status_symbol (v : json) :
  conforms ref_statusEnum v = true ->
  exists code, v = JString code /\
    table_getitem STATUS_EMOJI v = Ok (get_default STATUS_EMOJI code "").
Proof.
  intros Hc.
  assert (Hs : conforms statusEnum v = true) by (apply (ref_inv _ _ _ Hc); now left).
  destruct (enum_inv _ _ _ Hs (or_introl eq_refl)) as [code [-> Hmem]].
  exists code. split; [reflexivity|].
  unfold table_getitem, get_default, STATUS_EMOJI. simpl in Hmem |- *.
  repeat match goal with
         | |- context [String.eqb code ?k] => destruct (String.eqb code k)
         end; try reflexivity; discriminate Hmem.
Qed.

Lemma all_strings (l : list json) :
  Forall (fun x => exists s, x = JString s) l ->
  l = map JString (strings (JArray l)).
Proof.
  unfold strings, rows_of. induction 1 as [|x l [s ->] _ IH]; simpl; [reflexivity|].
  now rewrite <- IH.
Qed.

(** An array whose item schema is a string type, directly or through a
    reference, holds strings only. *)
Lemma string_list (s : schema) (v : json) :
  conforms s v = true -> has_type s TArray = true ->
  (exists sub, In sub (items_schemas s) /\
               (has_type sub TString = true
                \/ exists t, In t (ref_targets sub) /\ has_type t TString = true)) ->
  exists labels, v = JArray (map JString labels).
Proof.
  intros Hc Ht [sub [Hsub Hstr]].
  destruct (array_inv _ _ Hc Ht) as [l ->].
  exists (strings (JArray l)). f_equal. apply all_strings.
  eapply Forall_impl; [|apply (items_inv _ sub _ Hc Hsub)].
  intros x Hx. cbv beta in Hx.
  destruct Hstr as [Hstr|[t [Ht' Hstr]]].
  - now apply (string_inv sub).
  - apply (string_inv t); [|assumption]. now apply (ref_inv sub).
Qed.

Lemma strings_of_strings (labels : list string) :
  strings (JArray (map JString labels)) = labels.
Proof.
  unfold strings, rows_of. induction labels as [|s labels IH]; simpl; [reflexivity|].
  now rewrite IH.
Qed.

Lemma str_join_strings (sep : string) (labels : list string) :
  str_join sep (JArray (map JString labels)) = Ok (join sep labels).
Proof.
  unfold str_join. cbn [iterate bind]. now rewrite all_str_strings.
Qed.

Section Tables.
Variable py_repr : json -> string.

Lemma print_table_table (title : string) (header : list string)
      (rows : list (list json)) :
  _print_table py_repr title (literals header :: rows)
  = Ok (table py_repr title header rows).
Proof. apply print_table_lines. Qed.

Lemma collect_rows_ok (header : list string) (rowf : json -> result (list json))
      (rowspec : json -> list json) (l : list json) :
  Forall (fun x => rowf x = Ok (rowspec x)) l ->
  collect_rows header rowf l = Ok (literals header :: map rowspec l).
Proof.
  intros H. unfold collect_rows. now rewrite (for_each_snoc rowf rowspec l H).
Qed.

Lemma render_rows (title : string) (header : list string)
      (rowf : json -> result (list json)) (rowspec : json -> list json) (l : list json) :
  Forall (fun x => rowf x = Ok (rowspec x)) l ->
  (rows <- collect_rows header rowf l ;; _print_table py_repr title rows)
  = Ok (table py_repr title header (map rowspec l)).
Proof.
  intros H. unfold collect_rows. rewrite (for_each_snoc rowf rowspec l H).
  cbn [bind app]. apply print_table_lines.
Qed.

Ltac known := simpl; repeat (first [left; reflexivity | right]).

(** [take H name v]: the required field [name] of the conforming object
    of [H] is present; call its value [v]. *)
Ltac take H name v :=
  let G := fresh "G" in
  let C := fresh "C" in
  destruct (required_inv _ _ name H ltac:(known)) as [v G];
  pose proof (fun sub Hin => property_inv _ sub _ name v H Hin G) as C;
  rewrite (getitem_get _ name v G); rewrite ?(field_get _ name v G); cbn [bind].

Ltac take_status H :=
  let v := fresh "v" in
  let code := fresh "code" in
  let Hst := fresh "Hst" in
  take H "status_code" v;
  match goal with
  | C : forall sub, In ("status_code", sub) _ -> conforms sub v = true |- _ =>
      destruct (status_symbol v (C _ ltac:(known))) as [code [-> Hst]];
      rewrite Hst; cbn [bind]
  end.

Ltac string_items :=
  eexists; split;
  [known
  |first [left; reflexivity
         |right; eexists; split; [known|reflexivity]]].

Ltac take_strings H name labels :=
  let v := fresh "v" in
  let Hv := fresh "Hv" in
  take H name v;
  match goal with
  | C : forall sub, In (name, sub) _ -> conforms sub v = true |- _ =>
      destruct (string_list _ v (C _ ltac:(known)) eq_refl ltac:(string_items))
        as [labels Hv];
      subst v; rewrite str_join_strings, ?strings_of_strings; cbn [bind]
  end.

Ltac take_labels H name labels :=
  let v := fresh "v" in
  let Hv := fresh "Hv" in
  take H name v;
  match goal with
  | C : forall sub, In (name, sub) _ -> conforms sub v = true |- _ =>
      destruct (string_list _ v (C _ ltac:(known)) eq_refl ltac:(string_items))
        as [labels Hv];
      subst v; rewrite ?strings_of_strings
  end.

Ltac rows Hc l :=
  destruct (array_inv _ _ Hc eq_refl) as [l ->];
  cbn [iterate bind rows_of];
  apply render_rows;
  let Hitems := fresh "Hitems" in
  let x := fresh "x" in
  let Hx := fresh "Hx" in
  let o := fresh "o" in
  eassert (Hitems : Forall _ l) by (eapply items_inv; [exact Hc|known]);
  eapply Forall_impl; [|exact Hitems];
  intros x Hx; cbv beta in Hx;
  destruct (object_inv _ _ Hx eq_refl) as [o ->];
  unfold status, joined, yes_no, choose.

Lemma copy_quality_rendered (v : json) :
  conforms copy_quality v = true ->
  render_step3_copy_quality py_repr v = Ok (copy_quality_table py_repr v).
Proof.
  intros Hc. unfold render_step3_copy_quality, copy_quality_table.
  rows Hc l.
  take Hx "language" v1. take Hx "original_text" v2. take Hx "recommendation" v3.
  take_status Hx. take Hx "evidence" v5. reflexivity.
Qed.

Lemma claim_risk_rendered (v : json) :
  conforms claim_risk v = true ->
  render_step3_claim_risk py_repr v = Ok (claim_risk_table py_repr v).
Proof.
  intros Hc. unfold render_step3_claim_risk, claim_risk_table.
  rows Hc l.
  take Hx "language" v1. take Hx "claim" v2. take Hx "risk_level" v3.
  take Hx "rationale" v4. take_strings Hx "regions_impacted" labels.
  take Hx "action" v6. take_status Hx. reflexivity.
Qed.

Lemma label_claim_conversion_rendered (v : json) :
  conforms label_claim_conversion v = true ->
  render_step3_label_claim_conversion py_repr v
  = Ok (label_claim_conversion_table py_repr v).
Proof.
  intros Hc. unfold render_step3_label_claim_conversion, label_claim_conversion_table.
  rows Hc l.
  take Hx "source" v1. take Hx "declared_ml" v2. take Hx "calculated_fl_oz" v3.
  take Hx "declared_fl_oz" v4. take Hx "within_tolerance" v5.
  take_status Hx. take Hx "notes" v7. reflexivity.
Qed.

Lemma artwork_match_rendered (v : json) :
  conforms artwork_match v = true ->
  render_step3_artwork_match py_repr v = Ok (artwork_match_table py_repr v).
Proof.
  intros Hc. unfold render_step3_artwork_match, artwork_match_table.
  rows Hc l.
  take Hx "field" v1. take Hx "copy_doc_value" v2. take Hx "artwork_value" v3.
  take Hx "match" v4. take Hx "notes" v5. reflexivity.
Qed.

Lemma font_size_rendered (v : json) :
  conforms font_size v = true ->
  render_step3_font_size py_repr v = Ok (font_size_table py_repr v).
Proof.
  intros Hc. unfold render_step3_font_size, font_size_table.
  rows Hc l.
  take Hx "text" v1. take Hx "jurisdiction" v2. take Hx "required_min_pt" v3.
  take Hx "measured_min_pt" v4. take Hx "method" v5.
  take_status Hx. take Hx "screenshot_id" v7. reflexivity.
Qed.

Lemma barcode_rendered (v : json) :
  conforms barcode v = true ->
  render_step3_barcode py_repr v = Ok (barcode_table py_repr v).
Proof.
  intros Hc. unfold render_step3_barcode, barcode_table.
  rows Hc l.
  take Hx "symbology" v1. take Hx "encoded_digits" v2. take Hx "check_digit_valid" v3.
  take Hx "x_dim_mm" v4. take Hx "quiet_zone_mm" v5. take Hx "module_count" v6.
  take Hx "print_contrast" v7. take Hx "scan_test" v8. reflexivity.
Qed.

Lemma visual_snapshots_rendered (v : json) :
  conforms visual_snapshots v = true ->
  render_step3_visual_snapshots py_repr v = Ok (visual_snapshots_table py_repr v).
Proof.
  intros Hc. unfold render_step3_visual_snapshots, visual_snapshots_table.
  rows Hc l.
  take Hx "id" v1. take Hx "what" v2. take Hx "where" v3. take Hx "fix" v4.
  take_strings Hx "linked_rows" labels. take Hx "status_after_fix" v6. reflexivity.
Qed.

Lemma small_table_rendered (title : string) (v : json) :
  conforms (array_of string_) v = true ->
  small_table py_repr title v = Ok (item_table py_repr title v).
Proof.
  intros Hc. unfold small_table, item_table.
  destruct (array_inv _ _ Hc eq_refl) as [l ->].
  cbn [iterate bind rows_of]. apply render_rows.
  apply Forall_forall. reflexivity.
Qed.

Lemma dict_get_get (o : dict json) (name : string) (v default : json) :
  get o name = Some v -> dict_get (JObject o) name default = Ok v.
Proof. intros H. unfold dict_get, get_default. now rewrite H. Qed.

Ltac conforming C := apply C; known.

Lemma score_summary_rendered (d : json) :
  conforms score_summary d = true ->
  render_step3_score_summary py_repr d
  = Ok (join (nl ++ nl)
          [ score_table py_repr d;
            item_table py_repr "Top Fixes (❌)" (field d "top_fixes");
            item_table py_repr "Attention (⚠️)" (field d "attention");
            item_table py_repr "Next Steps" (field d "next_steps") ]).
Proof.
  intros Hd. destruct (object_inv _ _ Hd eq_refl) as [o ->].
  unfold render_step3_score_summary, score_table.
  take Hd "summary_rows" v.
  assert (Hc : conforms
                 (array_of
                    (closed_object ["area"; "checks"; "matches"; "score_percent"; "notes"]
                       [ ("area", string_); ("checks", nonnegative_integer);
                         ("matches", nonnegative_integer);
                         ("score_percent", percentage); ("notes", string_) ])) v = true)
    by conforming C.
  destruct (array_inv _ _ Hc eq_refl) as [l ->].
  cbn [iterate bind rows_of].
  rewrite (collect_rows_ok _ _
             (fun x => [field x "area"; field x "checks"; field x "matches";
                        field x "score_percent"; field x "notes"])).
  2:{ eassert (Hitems : Forall _ l) by (eapply items_inv; [exact Hc|known]).
      eapply Forall_impl; [|exact Hitems].
      intros x Hx. cbv beta in Hx.
      destruct (object_inv _ _ Hx eq_refl) as [ox ->].
      take Hx "area" v1. take Hx "checks" v2. take Hx "matches" v3.
      take Hx "score_percent" v4. take Hx "notes" v5. reflexivity. }
  cbn [bind]. rewrite print_table_table. cbn [bind].
  destruct (required_inv _ _ "top_fixes" Hd ltac:(known)) as [t1 G1].
  destruct (required_inv _ _ "attention" Hd ltac:(known)) as [t2 G2].
  destruct (required_inv _ _ "next_steps" Hd ltac:(known)) as [t3 G3].
  rewrite (dict_get_get _ _ _ _ G1), (dict_get_get _ _ _ _ G2), (dict_get_get _ _ _ _ G3).
  rewrite (field_get _ _ _ G1), (field_get _ _ _ G2), (field_get _ _ _ G3).
  cbn [bind].
  rewrite !small_table_rendered;
    try (eapply property_inv; [exact Hd| |eassumption]; known).
  reflexivity.
Qed.

Lemma step1_rendered (d : json) :
  conforms Schema.step1 d = true ->
  render_step1 py_repr d = Ok (step1_table py_repr d).
Proof.
  intros Hd. destruct (object_inv _ _ Hd eq_refl) as [o ->].
  unfold render_step1, step1_table.
  take Hd "project_name" v1. take Hd "round_version" v2.
  take_labels Hd "regions_in_scope" labels.
  rewrite RegionProps.format_regions_strings. cbn [bind].
  take Hd "due_date" v4.
  apply print_table_table.
Qed.

Lemma step2_rendered (d : json) :
  conforms Schema.step2 d = true ->
  render_step2 py_repr d = Ok (step2_table py_repr d).
Proof.
  intros Hd. destruct (object_inv _ _ Hd eq_refl) as [o ->].
  unfold render_step2, step2_table.
  take Hd "files" v.
  assert (Hc : conforms [Type_ TArray; Items [Ref "#/$defs/fileItem" fileItem]; MinItems 2]
                        v = true) by conforming C.
  destruct (array_inv _ _ Hc eq_refl) as [l ->].
  cbn [iterate bind rows_of]. apply render_rows.
  eassert (Hitems : Forall _ l) by (eapply items_inv; [exact Hc|known]).
  eapply Forall_impl; [|exact Hitems].
  intros x Hr. cbv beta in Hr.
  assert (Hx : conforms fileItem x = true) by (apply (ref_inv _ _ _ Hr); known).
  destruct (object_inv _ _ Hx eq_refl) as [ox ->].
  unfold status, present.
  take Hx "type" v1. take Hx "filename" v2. take_status Hx.
  unfold dict_get, field, get_default, contains.
  destruct (get ox "note"); reflexivity.
Qed.

Lemma step4_rendered (d : json) :
  conforms Schema.step4 d = true ->
  render_step4 py_repr d = Ok (step4_table py_repr d).
Proof.
  intros Hd. destruct (object_inv _ _ Hd eq_refl) as [o ->].
  unfold render_step4, step4_table, yes_no, choose, present, field, get_default.
  unfold has_key, getitem, contains.
  destruct (get o "version_change_log");
    destruct (get o "creative_brand_voice_check");
    destruct (get o "one_page_pdf_summary_export");
    cbn [bind app]; apply print_table_table.
Qed.

Lemma step5_rendered (d : json) :
  conforms Schema.step5 d = true ->
  render_step5 py_repr d = Ok (step5_table py_repr d).
Proof.
  intros Hd. destruct (object_inv _ _ Hd eq_refl) as [o ->].
  unfold render_step5, step5_table.
  take Hd "constraints" v.
  assert (Hc : conforms
                 (array_of
                    (closed_object ["constraint"; "source"; "applies_to"; "notes"]
                       [ ("constraint", string_);
                         ("source",
                           [Type_ TString;
                            Enum ["Retailer"; "Regulatory"; "Brand"; "Legal"; "Other"]]);
                         ("applies_to", string_);
                         ("notes", string_) ])) v = true) by conforming C.
  rows Hc l.
  take Hx "constraint" v1. take Hx "source" v2. take Hx "applies_to" v3.
  take Hx "notes" v4. reflexivity.
Qed.

Lemma step3_rendered (d : json) :
  conforms Schema.step3 d = true ->
  render_step3 py_repr d = Ok (join (nl ++ nl) (step3_artifacts py_repr d)).
Proof.
  intros Hd. destruct (object_inv _ _ Hd eq_refl) as [o ->].
  unfold render_step3, step3_artifacts.
  take Hd "copy_quality" v1. rewrite copy_quality_rendered by conforming C.
  cbn [bind].
  take Hd "claim_risk" v2. rewrite claim_risk_rendered by conforming C0.
  cbn [bind].
  take Hd "label_claim_conversion" v3.
  rewrite label_claim_conversion_rendered by conforming C1.
  cbn [bind].
  take Hd "artwork_match" v4. rewrite artwork_match_rendered by conforming C2.
  cbn [bind].
  take Hd "font_size" v5. rewrite font_size_rendered by conforming C3.
  cbn [bind].
  take Hd "barcode" v6. rewrite barcode_rendered by conforming C4.
  cbn [bind].
  take Hd "visual_snapshots" v7. rewrite visual_snapshots_rendered by conforming C5.
  cbn [bind].
  take Hd "score_summary" v8. rewrite score_summary_rendered by conforming C6.
  cbn [bind]. reflexivity.
Qed.

(** The report of a valid document. *)
Lemma report_rendered (doc : json) :
  valid_document doc = true ->
  render_report py_repr doc = Ok (report py_repr doc).
Proof.
  unfold valid_document. intros Hd.
  destruct (object_inv _ _ Hd eq_refl) as [o ->].
  unfold render_report, report, artifacts, present.
  take Hd "step1" v1. rewrite step1_rendered by conforming C. cbn [bind].
  take Hd "step2" v2. rewrite step2_rendered by conforming C0. cbn [bind].
  take Hd "step3" v3. rewrite step3_rendered by conforming C1. cbn [bind].
  take Hd "step5" v5.
  unfold has_key, getitem, contains, field, get_default.
  destruct (get o "step4") as [v4|] eqn:G4; cbn [bind app].
  - rewrite step4_rendered
      by (eapply property_inv; [exact Hd| |exact G4]; known).
    cbn [bind]. rewrite step5_rendered by conforming C2. cbn [bind app].
    do 2 f_equal.
    apply (join_nested (nl ++ nl) [_; _] _ [_; _]). discriminate.
  - rewrite step5_rendered by conforming C2. cbn [bind app].
    do 2 f_equal.
    apply (join_nested (nl ++ nl) [_; _] _ [_]). discriminate.
Qed.

End Tables.
End RenderProps.

(** ** The report *)

Module ReportProps.
Import Py Json Schema SchemaView Validator Conformance Regions Table Render ReportSpec.
Import PyFacts TableProps ValidateProps RenderProps.

Lemma join_lines (sep x : string) (l : list string) :
  join sep (x :: l) = x ++ fold_right (fun y rest => sep ++ y ++ rest) "" l.
Proof.
  revert x; induction l as [|y l IH]; intros x.
  - simpl. now rewrite append_nil_r.
  - rewrite join_cons by discriminate. rewrite IH. cbn [fold_right]. reflexivity.
Qed.

(** A table artifact is its title, an empty line, the header line and the
    separator line, then the lines of its data rows, if any. *)
Lemma table_lines py_repr (title : string) (header : list string)
      (rows : list (list json)) :
  table py_repr title header rows
  = title ++ nl ++ nl ++ line header ++ nl ++ separator header
    ++ data_lines py_repr rows.
Proof.
  unfold table, data_lines, separator. rewrite join_lines. cbn [fold_right].
  f_equal. f_equal. change ("" ++ ?x) with x.
  do 4 f_equal.
  induction rows as [|r rows IH]; cbn [map fold_right]; [reflexivity|].
  now rewrite IH.
Qed.

Lemma ends_with_bar_app (a b : string) : ends_with_bar b -> ends_with_bar (a ++ b).
Proof. intros [body ->]. exists (a ++ body). now rewrite append_assoc. Qed.

Lemma line_ends_with_bar (cells : list string) : ends_with_bar (line cells).
Proof. unfold line. do 2 apply ends_with_bar_app. now exists " ". Qed.

Lemma separator_ends_with_bar (header : list string) : ends_with_bar (separator header).
Proof. unfold separator. do 2 apply ends_with_bar_app. now exists "". Qed.

Lemma data_lines_end_with_bar py_repr (rows : list (list json)) :
  rows <> [] -> ends_with_bar (data_lines py_repr rows).
Proof.
  induction rows as [|r rows IH]; [congruence|]. intros _.
  unfold data_lines. cbn [fold_right]. fold (data_lines py_repr rows).
  apply ends_with_bar_app.
  destruct rows as [|r' rows].
  - cbn [data_lines fold_right]. rewrite append_nil_r. apply line_ends_with_bar.
  - apply ends_with_bar_app. apply IH. discriminate.
Qed.

Lemma table_ends_with_bar py_repr (title : string) (header : list string)
      (rows : list (list json)) :
  ends_with_bar (table py_repr title header rows).
Proof.
  rewrite table_lines. do 5 apply ends_with_bar_app.
  destruct rows as [|r rows].
  - cbn [data_lines fold_right]. rewrite append_nil_r. apply separator_ends_with_bar.
  - apply ends_with_bar_app. apply data_lines_end_with_bar. discriminate.
Qed.

Lemma join_ends_with_bar (sep : string) (l : list string) :
  l <> [] -> Forall ends_with_bar l -> ends_with_bar (join sep l).
Proof.
  induction l as [|x l IH]; [congruence|]. intros _ Hall.
  inversion Hall as [|? ? Hx Hl]; subst.
  destruct l as [|y l]; [exact Hx|].
  rewrite join_cons by discriminate.
  do 2 apply ends_with_bar_app. apply IH; [discriminate|assumption].
Qed.

(** Every artifact of a report is the table of its place in the layout. *)
Lemma artifacts_follow_layout py_repr (doc : json) :
  Forall2 (fun th artifact =>
             exists rows, artifact = table py_repr (fst th) (snd th) rows)
          (layout (present doc "step4")) (artifacts py_repr doc).
Proof.
  unfold layout, artifacts, step3_layout, step3_artifacts.
  destruct (present doc "step4"); cbn [app];
    repeat (constructor; [eexists; reflexivity|]); constructor.
Qed.

Lemma artifacts_end_with_bar py_repr (doc : json) :
  Forall ends_with_bar (artifacts py_repr doc).
Proof.
  pose proof (artifacts_follow_layout py_repr doc) as H.
  induction H as [|th a ths arts [rows ->] _ IH]; constructor; [|assumption].
  apply table_ends_with_bar.
Qed.

Lemma artifacts_not_nil py_repr (doc : json) : artifacts py_repr doc <> [].
Proof. unfold artifacts. discriminate. Qed.

(** C6: for a valid document the rendered text is its table artifacts in
    document order (step 1, step 2, the tables A to H of step 3 with the
    three lists of H, step 4 if and only if the document has it, step 5),
    two newlines between consecutive artifacts (a blank line) and one
    newline at the end, which follows a vertical bar; every artifact is the
    table of its title and header row, and a table shows its title, a blank
    line, its header line and its separator line whatever the number of its
    data rows, zero included. *)
Theorem report_is_the_tables_in_document_order :
  forall (message : ValidationError -> string) (py_repr : json -> string)
         (doc : json),
    valid_document doc = true ->
    render_report py_repr doc = Ok (join (nl ++ nl) (artifacts py_repr doc) ++ nl)
    /\ Main.main message py_repr doc
       = Main.Wrote (join (nl ++ nl) (artifacts py_repr doc) ++ nl)
    /\ Forall2 (fun th artifact =>
                  exists rows, artifact = table py_repr (fst th) (snd th) rows)
               (layout (present doc "step4")) (artifacts py_repr doc)
    /\ (forall title header rows,
           table py_repr title header rows
           = title ++ nl ++ nl ++ line header ++ nl ++ separator header
             ++ data_lines py_repr rows)
    /\ (forall title header,
           table py_repr title header []
           = title ++ nl ++ nl ++ line header ++ nl ++ separator header)
    /\ ends_with_bar (join (nl ++ nl) (artifacts py_repr doc)).
Proof.
  intros message py_repr doc Hvalid.
  pose proof (report_rendered py_repr doc Hvalid) as Hreport.
  unfold report in Hreport.
  split; [exact Hreport|]. split.
  { unfold Main.main. rewrite (validate_payload_valid message doc Hvalid).
    now rewrite Hreport. }
  split; [apply artifacts_follow_layout|].
  split; [intros; apply table_lines|]. split.
  - intros title header. rewrite table_lines. cbn [data_lines fold_right].
    now rewrite append_nil_r.
  - apply join_ends_with_bar;
      [apply artifacts_not_nil|apply artifacts_end_with_bar].
Qed.

Lemma report_witness :
  valid_document (Samples.document Samples.two_files) = true
  /\ render_report (fun _ => "") (Samples.document Samples.two_files)
     = Ok (join (nl ++ nl) (artifacts (fun _ => "") (Samples.document Samples.two_files))
           ++ nl).
Proof.
  split; [reflexivity|].
  apply (report_is_the_tables_in_document_order
           (fun _ => "") (fun _ => "") (Samples.document Samples.two_files)).
  reflexivity.
Defined.



End ReportProps.

(** ** Edge behaviour of the table renderer and the region formatter *)

Module EdgeProps.
Import Py Json Regions Table Render Shapes PyFacts.



Lemma join_delimiter (sep a b : string) (pre post : list string) :
  join sep (pre ++ (a ++ sep ++ b)%string :: post)%list
  = join sep (pre ++ a :: b :: post)%list.
Proof.
  change (a ++ sep ++ b) with (join sep [a; b]).
  rewrite join_nested by discriminate. reflexivity.
Qed.

(** X2: the cells of a row are joined without escaping: a cell that holds
    the delimiter " | " gives the line of the two cells it falls into, in
    any row and at any place in it. *)
Theorem print_table_does_not_escape_the_delimiter :
  forall (py_repr : json -> string) (title : string) (header : list string)
         (above below : list (list json)) (pre post : list json) (a b : string),
    _print_table py_repr title
      (literals header
       :: above ++ (pre ++ JString (a ++ " | " ++ b)%string :: post) :: below)%list
    = _print_table py_repr title
        (literals header :: above ++ (pre ++ JString a :: JString b :: post) :: below)%list.
Proof.
  intros. rewrite !TableProps.print_table_lines. rewrite !map_app. cbn [map].
  do 7 f_equal. unfold row_line. rewrite !map_app. cbn [map py_str].
  now rewrite join_delimiter.
Qed.


(** *** The region formatter *)

Section Formatter.
Variable py_repr : json -> string.

Lemma region_cell_decides (v : json) :
  region_cell py_repr v
  = if label_like v then Ok (cell_text py_repr v) else Raise AttributeError.
Proof.
  unfold region_cell, label_like, cell_text.
  destruct v as [| b | [z|f] | s | l | o]; cbn [truthy is_str orb negb label_of].
  - reflexivity.
  - now destruct b.
  - now destruct (z =? 0)%Z.
  - now destruct f.
  - now destruct (s =? "") eqn:E; [apply String.eqb_eq in E; subst|].
  - now destruct l.
  - now destruct o.
Qed.

(** A loop that appends one item per iteration and whose body raises [e]
    on the items that are not [ok]. *)
Lemma for_each_snoc_guarded {A B : Type} (g : A -> result B) (ok : A -> bool)
      (f : A -> B) (e : exn) (xs : list A) :
  (forall x, g x = if ok x then Ok (f x) else Raise e) ->
  forall acc,
    for_each (fun acc x => r <- g x ;; Ok (acc ++ [r])%list) xs acc
    = if forallb ok xs then Ok (acc ++ map f xs)%list else Raise e.
Proof.
  intros Hg. induction xs as [|x xs IH]; intros acc; cbn [for_each forallb map].
  - now rewrite app_nil_r.
  - rewrite Hg. destruct (ok x); cbn [bind andb]; [|reflexivity].
    rewrite IH. destruct (forallb ok xs); [|reflexivity].
    now rewrite <- app_assoc.
Qed.

(** X3: on a list the formatter returns exactly when every item is a
    string or counts as false, and raises [AttributeError] otherwise; the
    result has one cell per item, in order.  No regions at all, a value that
    counts as false in place of the list, give the empty text. *)
Theorem format_regions_result :
  (forall items : list json,
      _format_regions_with_flags py_repr (JArray items)
      = if forallb label_like items
        then Ok (join ", " (map (cell_text py_repr) items))
        else Raise AttributeError)
  /\ Forall (fun regions => _format_regions_with_flags py_repr regions = Ok "")
            [JNull; JBool false; JNum (NInt 0); JString ""; JArray []; JObject []].
Proof.
  split.
  - intros items. unfold _format_regions_with_flags.
    assert (Hit : iterate (if truthy (JArray items) then JArray items else JArray [])
                  = Ok items) by (destruct items; reflexivity).
    rewrite Hit. cbn [bind].
    rewrite (for_each_snoc_guarded (region_cell py_repr) label_like
               (cell_text py_repr) AttributeError items region_cell_decides).
    now destruct (forallb label_like items).
  - repeat constructor.
Qed.

End Formatter.
















(** X6: a key has a symbol in [STATUS_EMOJI] exactly when the schema
    accepts it as a status code; any other string raises [KeyError], as does
    a number, a boolean or [None], and a list or a dict, which cannot be a
    key, raises [TypeError]. *)
Theorem status_symbol_exists_iff_status_code :
  forall key : json,
    table_getitem STATUS_EMOJI key
    = match key with
      | JString code =>
          if Validator.is_valid Schema.statusEnum key
          then Ok (get_default STATUS_EMOJI code "")
          else Raise KeyError
      | JArray _ | JObject _ => Raise TypeError
      | _ => Raise KeyError
      end.
Proof.
  intros [| b | n | code | l | o]; try reflexivity.
  unfold table_getitem, get_default, Validator.is_valid, Validator.iter_errors,
    Schema.statusEnum, STATUS_EMOJI.
  cbn.
  repeat match goal with
         | |- context [String.eqb code ?k] => destruct (String.eqb code k)
         end; reflexivity.
Qed.

End EdgeProps.

(** ** The order of the error lines *)

Module OrderProps.
Import Py Json Schema Validator Conformance Shapes.
Import SortFacts ReportFacts.

Lemma filter_insert (p : list segment) (e : ValidationError)
      (l : list ValidationError) :
  filter (at_path p) (insert e l) = filter (at_path p) (e :: l).
Proof.
  induction l as [|y l IH]; [reflexivity|].
  cbn [insert]. destruct (path_lt y e) eqn:Hlt; [|reflexivity].
  cbn [filter] in IH |- *. rewrite IH.
  destruct (at_path p y) eqn:Hy, (at_path p e) eqn:He; try reflexivity.
  exfalso. unfold at_path, path_lt in *.
  destruct (path_compare p (path y)) eqn:Epy; try discriminate.
  destruct (path_compare (path y) (path e)) eqn:Eye; try discriminate.
  now rewrite (path_compare_eq_lt _ _ _ Epy Eye) in He.
Qed.

Lemma insert_least (e : ValidationError) (l : list ValidationError) :
  Forall (path_le e) l -> insert e l = e :: l.
Proof.
  destruct 1 as [|y l Hy _]; [reflexivity|].
  cbn [insert]. unfold path_lt, path_le in *.
  rewrite (path_compare_antisym (path e) (path y)).
  now destruct (path_compare (path e) (path y)).
Qed.

(** X7: the sort of the errors is stable, so the violations found at one
    path keep the order in which the validator yields them; and sorting a
    second time changes nothing. *)
Theorem errors_at_one_path_keep_their_order :
  forall errors : list ValidationError,
    (forall p, filter (at_path p) (sorted_by_path errors) = filter (at_path p) errors)
    /\ sorted_by_path (sorted_by_path errors) = sorted_by_path errors.
Proof.
  intros errors. split.
  - intros p. induction errors as [|e errors IH]; [reflexivity|].
    cbn [sorted_by_path]. rewrite filter_insert. cbn [filter]. now rewrite IH.
  - generalize (sorted_by_path_sorted errors).
    generalize (sorted_by_path errors). clear errors.
    induction 1 as [|e errors Hs IH He]; [reflexivity|].
    cbn [sorted_by_path]. rewrite IH. now apply insert_least.
Qed.

(** X8: the sort key of [validate_payload] is always comparable: two
    paths of errors of one document never hold a key in one and an index
    in the other at the first place where they differ, whatever the schema
    and the document are. *)
Theorem error_paths_are_comparable :
  forall (s : schema) (doc : json),
    Forall (fun x => Forall (fun y => mixed (path x) (path y) = false)
                            (iter_errors s doc))
           (iter_errors s doc).
Proof.
  intros s doc. apply Forall_forall. intros x Hx.
  apply Forall_forall. intros y Hy.
  apply resolved_paths_not_mixed with doc.
  - now rewrite (error_path_resolves s doc x).
  - now rewrite (error_path_resolves s doc y).
Qed.

End OrderProps.

(** ** The label of the root *)

Module RootProps.
Import Py Json Schema SchemaView Validator Conformance Shapes.
Import PyFacts ValidatorFacts SortFacts ReportFacts.

Lemma has_slash_app (a b : string) : has_slash (a ++ String "/" b) = true.
Proof.
  induction a as [|c a IH]; [reflexivity|].
  cbn [append has_slash]. rewrite IH. apply orb_true_r.
Qed.

Lemma str_int_plain (z : Z) : str_int z <> "" /\ str_int z <> "<root>".
Proof.
  unfold str_int. destruct (Z.to_int z) as [d|d]; cbn.
  - destruct d; split; discriminate.
  - split; discriminate.
Qed.

(** The keys of a violation's path are names the schema declares. *)
Lemma violation_path_plain (s : schema) (doc : json) p k w names :
  Violation s doc p k w names ->
  forallb plain_names s = true ->
  Forall plain_segment p.
Proof.
  induction 1 as [s w k names Hk Hf
                 |s props name sub o x p k w names Hk Hp Hget Hv IH
                 |s sub items i x p k w names Hk Hnth Hv IH
                 |s pointer target doc p k w names Hk Hv IH
                 |s subs sub doc p k w names Hk Hsub Hv IH];
    intros Hs; rewrite forallb_forall in Hs.
  - constructor.
  - specialize (Hs _ Hk). cbn [plain_names] in Hs.
    rewrite forallb_forall in Hs. specialize (Hs _ Hp).
    apply andb_true_iff in Hs. destruct Hs as [Hname Hsub].
    constructor; [exact Hname|now apply IH].
  - specialize (Hs _ Hk). cbn [plain_names] in Hs.
    constructor; [exact I|now apply IH].
  - specialize (Hs _ Hk). cbn [plain_names] in Hs. now apply IH.
  - specialize (Hs _ Hk). cbn [plain_names] in Hs.
    rewrite forallb_forall in Hs. apply IH. now apply Hs.
Qed.

Lemma path_str_root (p : list segment) :
  Forall plain_segment p ->
  path_str p = "<root>" <-> p = [].
Proof.
  intros Hp. split; [|now intros ->].
  destruct p as [|a [|b p]]; [reflexivity| |]; intros H; exfalso.
  - unfold path_str in H. cbn [map join] in H.
    assert (Ha : segment_str a <> "" /\ segment_str a <> "<root>").
    { inversion Hp as [|? ? Ha _]; subst. destruct a as [name|i]; cbn [segment_str].
      - cbn [plain_segment] in Ha. unfold plain_name in Ha. apply andb_true_iff in Ha. destruct Ha as [H1 H2].
        apply negb_true_iff in H1, H2. split; now apply String.eqb_neq.
      - apply str_int_plain. }
    destruct Ha as [H1 H2]. apply String.eqb_neq in H1. rewrite H1 in H.
    contradiction.
  - unfold path_str in H. cbn [map] in H.
    change (join "/" (segment_str a :: segment_str b :: map segment_str p))
      with (segment_str a
            ++ String "/" (join "/" (segment_str b :: map segment_str p))) in H.
    pose proof (has_slash_app (segment_str a)
                  (join "/" (segment_str b :: map segment_str p))) as Hslash.
    destruct (_ =? "") eqn:E.
    + apply String.eqb_eq in E. rewrite E in Hslash. discriminate.
    + rewrite H in Hslash. discriminate.
Qed.

(** X9: in the lines of the error message the text "<root>" stands for
    the document itself and for nothing else: no error below the root has
    a path that is written that way. *)
Theorem root_label_means_the_whole_document :
  forall payload : json,
    Forall (fun e => path_str (path e) = "<root>" <-> path e = [])
           (sorted_by_path (iter_errors SCHEMA payload)).
Proof.
  intros payload. apply Forall_forall. intros e Hin.
  apply (Permutation_in _ (sorted_by_path_permutation _)) in Hin.
  apply path_str_root.
  apply violation_path_plain with SCHEMA payload (validator e) (instance e) (cited e);
    [|reflexivity].
  apply reports_sound. unfold reports. now rewrite <- error_eta.
Qed.

End RootProps.

(** ** What an accepted payload is *)

Module AcceptedProps.
Import Py Json Schema SchemaView Validator Conformance Shapes.
Import ValidatorFacts SortFacts ValidateProps RenderProps.

Lemma validate_payload_returns (message : ValidationError -> string)
      (payload v : json) :
  validate_payload message payload = Ok v ->
  v = payload /\ valid_document payload = true.
Proof.
  unfold validate_payload. intros H.
  destruct (sorted_by_path (iter_errors SCHEMA payload)) as [|e errors] eqn:E;
    [|discriminate].
  cbn [is_nil negb] in H. split; [congruence|]. now apply reported_nil_iff.
Qed.

Lemma mem_in (x : string) (l : list string) : mem x l = true -> In x l.
Proof.
  unfold mem. rewrite existsb_exists. intros [y [Hin Heq]].
  apply String.eqb_eq in Heq. now subst.
Qed.

(** X10: what [validate_payload] returns is the payload it was given, a
    dict that holds the four required sections and no key other than
    [version] and the five sections. *)
Theorem accepted_payload_has_the_required_sections :
  forall (message : ValidationError -> string) (payload v : json),
    validate_payload message payload = Ok v ->
    v = payload
    /\ exists o : dict json,
        payload = JObject o
        /\ Forall (fun name => contains o name = true)
                  ["step1"; "step2"; "step3"; "step5"]
        /\ Forall (fun kv => In (fst kv)
                               ["version"; "step1"; "step2"; "step3"; "step4"; "step5"])
                  o.
Proof.
  intros message payload v H.
  destruct (validate_payload_returns message payload v H) as [-> Hvalid].
  split; [reflexivity|]. unfold valid_document in Hvalid.
  destruct (object_inv _ _ Hvalid eq_refl) as [o ->].
  exists o. split; [reflexivity|]. split.
  - assert (Hk : In (Required ["step1"; "step2"; "step3"; "step5"]) SCHEMA)
      by (cbn; tauto).
    pose proof (conforms_keyword _ _ _ Hvalid Hk) as Hs. cbn [satisfies] in Hs.
    apply Forall_forall. now apply forallb_forall.
  - assert (Hk : In (AdditionalProperties false) SCHEMA) by (cbn; tauto).
    pose proof (conforms_keyword _ _ _ Hvalid Hk) as Hs.
    cbn [satisfies orb] in Hs.
    apply Forall_forall. intros kv Hin.
    rewrite forallb_forall in Hs. apply mem_in. exact (Hs kv Hin).
Qed.

Lemma accepted_payload_witness :
  validate_payload (fun _ => "") (Samples.document Samples.two_files)
  = Ok (Samples.document Samples.two_files)
  /\ exists o : dict json,
      Samples.document Samples.two_files = JObject o
      /\ Forall (fun name => contains o name = true)
                ["step1"; "step2"; "step3"; "step5"]
      /\ Forall (fun kv => In (fst kv)
                             ["version"; "step1"; "step2"; "step3"; "step4"; "step5"])
                o.
Proof.
  split; [reflexivity|].
  apply (accepted_payload_has_the_required_sections
           (fun _ => "") (Samples.document Samples.two_files)
           (Samples.document Samples.two_files)).
  reflexivity.
Defined.

End AcceptedProps.

(** ** Patterns and the newline at the end *)

Module PatternProps.
Import Py Json Schema Validator Shapes PyFacts.







End PatternProps.

(** ** The renderers without the validator *)

Module RenderEdgeProps.
Import Py Json Regions Table Render Shapes PyFacts TableProps.


(** X13: the renderers have no fallback for a section that is not there:
    on a dict that lacks one of the four required sections [render_report]
    raises and gives no report, not even of the sections that are there. *)
Theorem render_report_needs_every_required_section :
  forall (py_repr : json -> string) (o : dict json),
    forallb (contains o) ["step1"; "step2"; "step3"; "step5"] = false ->
    exists e : exn, render_report py_repr (JObject o) = Raise e.
Proof.
  intros py_repr o H.
  unfold render_report, has_key, getitem. unfold contains in *. cbn [forallb] in H.
  destruct (get o "step1") as [v1|]; cbn [bind]; [|eauto].
  destruct (render_step1 py_repr v1); cbn [bind]; [|eauto].
  destruct (get o "step2") as [v2|]; cbn [bind]; [|eauto].
  destruct (render_step2 py_repr v2); cbn [bind]; [|eauto].
  destruct (get o "step3") as [v3|]; cbn [bind]; [|eauto].
  destruct (render_step3 py_repr v3); cbn [bind]; [|eauto].
  destruct (get o "step5") as [v5|]; [discriminate|].
  destruct (get o "step4") as [v4|]; cbn [bind]; [|eauto].
  destruct (render_step4 py_repr v4); cbn [bind]; eauto.
Qed.

Lemma render_report_needs_witness :
  forallb (contains (V := json) []) ["step1"; "step2"; "step3"; "step5"] = false
  /\ exists e : exn, render_report (fun _ => "") (JObject []) = Raise e.
Proof.
  split; [reflexivity|].
  apply (render_report_needs_every_required_section (fun _ => "") []).
  reflexivity.
Defined.

End RenderEdgeProps.

(** ** The command line *)

Module CliProps.
Import Py Json Schema Validator Conformance Render Shapes Cli.
Import SortFacts AcceptedProps RenderProps.

Section Runs.
Variable SCHEMA_JSON : string.
Variable message : ValidationError -> string.
Variable py_repr : json -> string.






(** X17: the report goes to one place: with [--out] the file gets the very
    text that is written to the output stream without it, and the stream
    gets a line naming the file instead. *)
Theorem out_file_holds_what_stdout_would :
  forall (env : environment) (source target md : string),
    writable env target = true ->
    main SCHEMA_JSON message py_repr env
         {| inp := Some source; out := None; dump_schema := None |}
    = {| events := [Stdout md]; finish := Returned |} ->
    main SCHEMA_JSON message py_repr env
         {| inp := Some source; out := Some target; dump_schema := None |}
    = {| events := [WriteText target md;
                    Stdout ("Wrote report to " ++ target ++ nl)];
         finish := Returned |}.
Proof.
  intros env source target md Hw. unfold main. cbn [dump_schema inp out].
  destruct (jsonschema_importable env); cbn [negb]; [|discriminate].
  destruct (load env source) as [err|payload]; [discriminate|].
  destruct (validate_payload message payload); [|discriminate].
  destruct (render_report py_repr payload); [|discriminate].
  rewrite Hw. now intros [= ->].
Qed.

End Runs.


Lemma out_file_witness :
  Cli.main "{}" (fun _ => "") (fun _ => "")
    (Environments.with_payload (Samples.document Samples.two_files))
    {| inp := Some "payload.json"; out := Some "report.md"; dump_schema := None |}
  = {| events :=
         [WriteText "report.md"
            (ReportSpec.report (fun _ => "") (Samples.document Samples.two_files));
          Stdout ("Wrote report to " ++ "report.md" ++ nl)];
       finish := Returned |}.
Proof.
  apply (out_file_holds_what_stdout_would "{}" (fun _ => "") (fun _ => "")
           (Environments.with_payload (Samples.document Samples.two_files))
           "payload.json" "report.md"
           (ReportSpec.report (fun _ => "") (Samples.document Samples.two_files)));
    reflexivity.
Defined.

End CliProps.
